(** * Task-master backend: the handlers of [server.js] over a relational store

    The handlers of [server.js] are JavaScript closures that validate the
    request, run one SQL statement through [pool.query] and answer with
    [res.status(..).send(..)].  The embedding keeps that shape:

    - a request field is [option string]: [None] is a key that is missing
      (or [null]: both are falsy in JavaScript and both bind to SQL NULL),
      [Some s] is a string, the empty one included; fields of other JSON
      types (numbers, booleans, objects) are not embedded, and what is
      proved of a request is proved of requests whose fields are strings;
    - the store is the pair of tables that [initializeDatabase] creates,
      as lists of rows in the order a scan finds them, with the sequence
      behind [tasks.id];
    - a statement first binds its parameters, and raises when the store
      refuses one (a text with the byte 0 in it, a text too long for the
      VARCHAR column it is assigned to, a text that is no timestamp, an
      [:id] that is no 32-bit integer); only then does it touch the rows;
    - a statement returns its rows, or [None] when the store raises (the
      handler's [catch] answers 500);
    - a handler is a function from the store and the request to the new
      store and the response; the handlers of the task routes take the
      payload that [authenticateToken] left in [req.user].

    What the source takes from libraries (the store's reading of a
    timestamp text, JavaScript's [Date.parse], [bcrypt.compare]) is a
    variable of the section that holds the handlers.  Text is a string of
    8-bit characters.  ILIKE folds letters as the locale of the database
    says; the embedding folds the letters A to Z, which is what the usual
    locales do on ASCII text, and the properties that say which rows a
    search leaves out are stated for ASCII text.  GET /tasks/filter is
    registered twice with the same handler; it is embedded once. *)

From Stdlib Require Import ZArith List String Ascii Bool Lia.
From Stdlib Require Import Sorting.Sorted Sorting.Permutation.
From Stdlib Require Import DecimalString.
Import ListNotations.
Local Open Scope string_scope.
Local Open Scope list_scope.
Local Open Scope Z_scope.

(** ** JavaScript tests on request fields *)

(** [!x] on a field: a missing key, [null] and the empty string are falsy. *)
Definition falsy (x : option string) : bool :=
  match x with
  | None => true
  | Some s => String.eqb s ""
  end.

Definition truthy (x : option string) : bool := negb (falsy x).

(** [x || null], as the filter handler binds its optional criteria. *)
Definition or_null (x : option string) : option string :=
  if truthy x then x else None.

(** [Array.prototype.includes] on an array of strings. *)
Definition includes (arr : list string) (x : option string) : bool :=
  match x with
  | None => false
  | Some s => existsb (String.eqb s) arr
  end.

Definition validPriorities : list string := ["low"; "medium"; "high"].
Definition validStatuses : list string := ["pending"; "in-progress"; "completed"].

(** ** Rows *)

Module User.
Record t : Type := mk
  { id : Z;
    username : string;
    email : string;
    password : string;
    created_at : Z }.
End User.

Module Task.
(** [tasks]: [title] is NOT NULL, the other text columns and [deadline]
    are nullable. *)
Record t : Type := mk
  { id : Z;
    user_id : Z;
    title : string;
    description : option string;
    status : option string;
    priority : option string;
    deadline : option Z;
    created_at : Z }.
End Task.

Record db : Type := mkdb
  { users : list User.t;
    tasks : list Task.t;
    tasks_id_seq : Z }.

Definition set_tasks (d : db) (l : list Task.t) : db :=
  mkdb (users d) l (tasks_id_seq d).

Definition bump_seq (d : db) : db :=
  mkdb (users d) (tasks d) (tasks_id_seq d + 1).

(** ** SQL values and conditions *)

(** A condition of a WHERE clause is true, false or unknown ([None]);
    a row is kept when the condition is true. *)
Definition tri : Type := option bool.

Definition tri_and (a b : tri) : tri :=
  match a, b with
  | Some false, _ | _, Some false => Some false
  | Some true, Some true => Some true
  | _, _ => None
  end.

Definition tri_or (a b : tri) : tri :=
  match a, b with
  | Some true, _ | _, Some true => Some true
  | Some false, Some false => Some false
  | _, _ => None
  end.

Definition holds (c : tri) : bool :=
  match c with Some true => true | _ => false end.

Definition sql_eq_text (a b : option string) : tri :=
  match a, b with
  | Some x, Some y => Some (String.eqb x y)
  | _, _ => None
  end.

Definition sql_le_ts (a b : option Z) : tri :=
  match a, b with
  | Some x, Some y => Some (x <=? y)
  | _, _ => None
  end.

Definition is_null {A : Type} (a : option A) : tri :=
  match a with None => Some true | Some _ => Some false end.

(** [COALESCE(p, col)] *)
Definition coalesce {A : Type} (p col : option A) : option A :=
  match p with Some _ => p | None => col end.

(** Assignment to a [VARCHAR(n)] column: a longer text raises, unless the
    characters beyond [n] are all spaces, which are cut. *)
Fixpoint all_spaces (s : string) : bool :=
  match s with
  | EmptyString => true
  | String c s' => Ascii.eqb c " "%char && all_spaces s'
  end.

Definition varchar (n : nat) (s : string) : option string :=
  if (String.length s <=? n)%nat then Some s
  else if all_spaces (substring n (String.length s - n) s)
       then Some (substring 0 n s)
       else None.

(** ** Parameters *)

(** The byte 0 is in no text of the store: a statement raises when a
    text it is given has one. *)
Definition has_nul (s : string) : bool :=
  existsb (Ascii.eqb Ascii.zero) (list_ascii_of_string s).

(** A text given for a TEXT parameter. *)
Definition text_in (s : string) : option string :=
  if has_nul s then None else Some s.

(** A text given for a parameter that is assigned to a [VARCHAR(n)]
    column. *)
Definition varchar_in (n : nat) (s : string) : option string :=
  if has_nul s then None else varchar n s.

(** A field bound to a parameter: a missing field is NULL, a string is
    read at the parameter's type; [None] when the store refuses it. *)
Definition bind {A : Type} (read : string -> option A) (p : option string)
  : option (option A) :=
  match p with
  | None => Some None
  | Some s => option_map Some (read s)
  end.

(** The [:id] of a route is a piece of the URL, bound to a parameter that
    is compared with an INT column: the store reads it as an integer, or
    as no integer at all. *)
Inductive route_id : Type :=
| IdNumber (n : Z)
| IdOther.

Coercion IdNumber : Z >-> route_id.

(** INT is the integers of 32 bits; the store refuses any other. *)
Definition int4 (n : Z) : bool :=
  (-2147483648 <=? n) && (n <=? 2147483647).

Definition bind_int4 (id : route_id) : option Z :=
  match id with
  | IdNumber n => if int4 n then Some n else None
  | IdOther => None
  end.

(** ** ORDER BY *)

(** The rows come out in the order of the key; rows with equal keys keep
    the order the scan found them in. *)
Section OrderBy.
Context {A : Type} (before : A -> A -> bool).

Fixpoint insert_row (x : A) (l : list A) : list A :=
  match l with
  | [] => [x]
  | y :: l' => if before x y then x :: l else y :: insert_row x l'
  end.

Fixpoint order_by (l : list A) : list A :=
  match l with
  | [] => []
  | x :: l' => insert_row x (order_by l')
  end.
End OrderBy.

(** [created_at DESC] *)
Definition created_at_desc (a b : Task.t) : bool :=
  Task.created_at b <=? Task.created_at a.

(** [deadline DESC]: in descending order the store puts NULL first. *)
Definition deadline_desc (a b : Task.t) : bool :=
  match Task.deadline a, Task.deadline b with
  | None, _ => true
  | Some _, None => false
  | Some x, Some y => y <=? x
  end.

(** ** ILIKE *)

Definition to_lower (c : ascii) : ascii :=
  let n := nat_of_ascii c in
  if ((65 <=? n) && (n <=? 90))%nat then ascii_of_nat (n + 32) else c.

Inductive like_tok : Type :=
| LAny                 (* % : any run of characters *)
| LOne                 (* _ : any one character *)
| LLit (c : ascii).    (* the character itself *)

(** A pattern read left to right; a backslash takes the next character
    literally ([esc] is set while one is pending), and a pattern that ends
    in a lone backslash is refused. *)
Fixpoint like_parse (esc : bool) (p : list ascii) : option (list like_tok) :=
  match p with
  | [] => if esc then None else Some []
  | c :: p' =>
      if esc then option_map (cons (LLit c)) (like_parse false p')
      else if Ascii.eqb c "\"%char then like_parse true p'
      else if Ascii.eqb c "%"%char then option_map (cons LAny) (like_parse false p')
      else if Ascii.eqb c "_"%char then option_map (cons LOne) (like_parse false p')
      else option_map (cons (LLit c)) (like_parse false p')
  end.

Fixpoint like_toks (ts : list like_tok) (s : list ascii) {struct ts} : bool :=
  match ts with
  | [] => match s with [] => true | _ :: _ => false end
  | LAny :: ts' =>
      (fix skip (s : list ascii) : bool :=
         like_toks ts' s
         || match s with [] => false | _ :: s' => skip s' end) s
  | LOne :: ts' =>
      match s with [] => false | _ :: s' => like_toks ts' s' end
  | LLit c :: ts' =>
      match s with
      | [] => false
      | d :: s' => Ascii.eqb c d && like_toks ts' s'
      end
  end.

Definition lower (s : string) : list ascii :=
  map to_lower (list_ascii_of_string s).

(** [x ILIKE pattern], the pattern already read: unknown on a NULL. *)
Definition ilike (ts : list like_tok) (x : option string) : tri :=
  option_map (fun s => like_toks ts (lower s)) x.

(** ** Requests and responses *)

(** The payload of the bearer token, which the guard leaves in [req.user];
    signature and expiry are not part of the embedding. *)
Record jwt_payload : Type := mkjwt
  { jwt_id : Z;
    jwt_username : string }.

Module TaskBody.
Record t : Type := mk
  { title : option string;
    description : option string;
    status : option string;
    priority : option string;
    deadline : option string }.
End TaskBody.

Module FilterQuery.
Record t : Type := mk
  { status : option string;
    priority : option string;
    due_date : option string }.
End FilterQuery.

Module LoginBody.
Record t : Type := mk
  { emailOrUsername : option string;
    password : option string }.
End LoginBody.

Inductive payload : Type :=
| Text (s : string)                          (* send("...") *)
| Message (s : string)                       (* json({ message: "..." }) *)
| Row (r : Task.t)                           (* send(result.rows[0]) *)
| Rows (l : list Task.t)                     (* send(result.rows) *)
| Token (message : string) (token : jwt_payload)
| Undefined.                                 (* rows[0] of no rows *)

Record response : Type := Res
  { status : Z;
    sent : payload }.

(** The error taxonomy of the interface and its status codes. *)
Inductive error : Type :=
| ValidationError | Unauthorized | Forbidden | Conflict | NotFound | InternalError.

Definition error_code (e : error) : Z :=
  match e with
  | ValidationError => 400
  | Unauthorized => 401
  | Forbidden => 403
  | NotFound => 404
  | Conflict => 409
  | InternalError => 500
  end.

Definition fails (r : response) (e : error) : Prop := status r = error_code e.

Definition succeeds (r : response) : Prop := 200 <= status r < 300.

(** The string a field holds ([""] for a falsy one). *)
Definition text (x : option string) : string :=
  match x with Some s => s | None => "" end.

(** [result.rows[0]] *)
Definition first_row (rows : list Task.t) : payload :=
  match rows with
  | r :: _ => Row r
  | [] => Undefined
  end.

(** ** The statements and the handlers *)

Section Handlers.

(** The store's reading of a text bound to a TIMESTAMP parameter, at the
    time the statement runs ([None]: the text is refused and the statement
    raises).  It is the reading of one moment: the store reads texts such
    as [now] and [tomorrow] against its clock. *)
Variable timestamp_in : string -> option Z.
(** [Date.parse] ([None] is NaN), on the scale of the store's timestamps. *)
Variable Date_parse : string -> option Z.
(** [bcrypt.compare password hash] *)
Variable bcrypt_compare : string -> string -> bool.

Definition bind_timestamp (p : option string) : option (option Z) :=
  bind (fun s => if has_nul s then None else timestamp_in s) p.

(** The five fields of a task, bound to the parameters of INSERT and of
    UPDATE: [title] goes to a VARCHAR(255) column, [status] and [priority]
    to VARCHAR(50), [description] to TEXT, [deadline] to TIMESTAMP. *)
Definition bind_task (title description status priority deadline : option string)
  : option (option string * option string * option string * option string
            * option Z) :=
  match bind (varchar_in 255) title, bind text_in description,
        bind (varchar_in 50) status, bind (varchar_in 50) priority,
        bind_timestamp deadline with
  | Some t, Some ds, Some st, Some pr, Some dl => Some (t, ds, st, pr, dl)
  | _, _, _, _, _ => None
  end.

(** *** POST /tasks *)

(** INSERT INTO tasks (user_id, title, description, status, priority,
    deadline) VALUES ($1 .. $6) RETURNING *.  When the parameters are
    bound, [id] takes the next value of its sequence and [created_at] the
    clock [now]; the row is refused when [title] is NULL or [user_id] names
    no user, and has then used its sequence value. *)
Definition insert_task (d : db) (uid : Z)
    (title description status priority deadline : option string) (now : Z)
  : db * option (list Task.t) :=
  match bind_task title description status priority deadline with
  | None => (d, None)
  | Some (t, ds, st, pr, dl) =>
      let d1 := bump_seq d in
      match t with
      | Some t' =>
          if existsb (fun u => User.id u =? uid) (users d) then
            let row := Task.mk (tasks_id_seq d1) uid t' ds st pr dl now in
            (set_tasks d1 (tasks d ++ [row]), Some [row])
          else (d1, None)
      | None => (d1, None)
      end
  end.

Definition post_tasks (d : db) (user : jwt_payload) (req : TaskBody.t) (now : Z)
  : db * response :=
  let '(TaskBody.mk title description status priority deadline) := req in
  if falsy title || falsy priority then
    (d, Res 400 (Text "Title and priority are required"))
  else if negb (includes validPriorities priority) then
    (d, Res 400 (Text "Invalid priority"))
  else if truthy status && negb (includes validStatuses status) then
    (d, Res 400 (Text "Invalid status"))
  else
    match insert_task d (jwt_id user) title description status priority deadline now with
    | (d', Some rows) => (d', Res 201 (first_row rows))
    | (d', None) => (d', Res 500 (Text "Failed to create task"))
    end.

(** *** GET /tasks *)

(** SELECT * FROM tasks WHERE user_id = $1 ORDER BY created_at DESC *)
Definition select_tasks (d : db) (uid : Z) : list Task.t :=
  order_by created_at_desc
    (filter (fun r => Task.user_id r =? uid) (tasks d)).

Definition get_tasks (d : db) (user : jwt_payload) : response :=
  Res 200 (Rows (select_tasks d (jwt_id user))).

(** *** PUT /tasks/:id *)

(** WHERE id = $6 AND user_id = $7 *)
Definition targets (id uid : Z) (r : Task.t) : bool :=
  (Task.id r =? id) && (Task.user_id r =? uid).

(** The SET list on one row: each column takes COALESCE(parameter, column). *)
Definition update_row (title description status priority : option string)
    (deadline : option Z) (r : Task.t) : Task.t :=
  Task.mk (Task.id r) (Task.user_id r)
    (match title with Some t => t | None => Task.title r end)
    (coalesce description (Task.description r))
    (coalesce status (Task.status r))
    (coalesce priority (Task.priority r))
    (coalesce deadline (Task.deadline r))
    (Task.created_at r).

(** UPDATE tasks SET .. WHERE id = $6 AND user_id = $7 RETURNING *.  The
    statement raises when a parameter is refused, whether or not a row
    meets the condition.  The store does not rewrite a row where it is: it
    writes the new version after the rows of the table, and a scan finds
    it there. *)
Definition update_task (d : db)
    (title description status priority deadline : option string)
    (id : route_id) (uid : Z)
  : db * option (list Task.t) :=
  match bind_task title description status priority deadline, bind_int4 id with
  | Some (t, ds, st, pr, dl), Some n =>
      let written :=
        map (update_row t ds st pr dl) (filter (targets n uid) (tasks d)) in
      (set_tasks d
         (filter (fun r => negb (targets n uid r)) (tasks d) ++ written),
       Some written)
  | _, _ => (d, None)
  end.

Definition put_tasks_id (d : db) (user : jwt_payload) (id : route_id)
    (req : TaskBody.t) : db * response :=
  let '(TaskBody.mk title description status priority deadline) := req in
  if falsy title && falsy description && falsy status && falsy priority
     && falsy deadline then
    (d, Res 400 (Text "At least one field must be provided to update"))
  else
    match update_task d title description status priority deadline id (jwt_id user) with
    | (d', Some []) =>
        (d', Res 404 (Text "Task not found or not authorized to update"))
    | (d', Some rows) => (d', Res 200 (first_row rows))
    | (d', None) => (d', Res 500 (Text "Failed to update task"))
    end.

(** *** DELETE /tasks/:id *)

(** DELETE FROM tasks WHERE id = $1 AND user_id = $2 RETURNING * *)
Definition delete_task (d : db) (id : route_id) (uid : Z)
  : db * option (list Task.t) :=
  match bind_int4 id with
  | Some n =>
      (set_tasks d (filter (fun r => negb (targets n uid r)) (tasks d)),
       Some (filter (targets n uid) (tasks d)))
  | None => (d, None)
  end.

Definition delete_tasks_id (d : db) (user : jwt_payload) (id : route_id)
  : db * response :=
  match delete_task d id (jwt_id user) with
  | (d', Some []) =>
      (d', Res 404 (Text "Task not found or not authorized to delete"))
  | (d', Some (_ :: _)) => (d', Res 200 (Text "Task deleted successfully"))
  | (d', None) => (d', Res 500 (Text "Failed to delete task"))
  end.

(** *** GET /tasks/filter *)

(** WHERE user_id = $1 AND ($2 IS NULL OR status = $2)
      AND ($3 IS NULL OR priority = $3) AND ($4 IS NULL OR deadline <= $4) *)
Definition filter_where (uid : Z) (status priority : option string)
    (due : option Z) (r : Task.t) : tri :=
  tri_and
    (tri_and
       (tri_and (Some (Task.user_id r =? uid))
          (tri_or (is_null status) (sql_eq_text (Task.status r) status)))
       (tri_or (is_null priority) (sql_eq_text (Task.priority r) priority)))
    (tri_or (is_null due) (sql_le_ts (Task.deadline r) due)).

(** SELECT .. ORDER BY created_at DESC, with [$2] and [$3] bound as
    TEXT. *)
Definition select_filter (d : db) (uid : Z) (status priority : option string)
    (due : option Z) : option (list Task.t) :=
  match bind text_in status, bind text_in priority with
  | Some st, Some pr =>
      Some (order_by created_at_desc
              (filter (fun r => holds (filter_where uid st pr due r)) (tasks d)))
  | _, _ => None
  end.

(** [Date.parse(x)] of a field; [isNaN] of it is [None]. *)
Definition date_of (x : option string) : option Z :=
  match x with
  | Some s => Date_parse s
  | None => None
  end.

Definition get_tasks_filter (d : db) (user : jwt_payload) (q : FilterQuery.t)
  : response :=
  let '(FilterQuery.mk status priority due_date) := q in
  if truthy due_date && match date_of due_date with None => true | Some _ => false end
  then Res 400 (Message "Invalid date format for 'due_date'")
  else
    match select_filter d (jwt_id user) (or_null status) (or_null priority)
            (if truthy due_date then date_of due_date else None) with
    | Some rows => Res 200 (Rows rows)
    | None => Res 500 (Message "Failed to filter tasks")
    end.

(** *** GET /tasks/search *)

(** WHERE user_id = $1 AND (title ILIKE $2 OR description ILIKE $2) *)
Definition search_where (uid : Z) (ts : list like_tok) (r : Task.t) : tri :=
  tri_and (Some (Task.user_id r =? uid))
    (tri_or (ilike ts (Some (Task.title r))) (ilike ts (Task.description r))).

(** SELECT .. ORDER BY deadline DESC; the pattern is read once, and the
    statement raises ([None]) when it is refused.  The store also refuses
    a pattern with the byte 0 in it, as it does any text: that is left out
    here, and what is proved of the answer to a keyword is proved of
    keywords without that byte, or does not depend on it. *)
Definition select_search (d : db) (uid : Z) (pattern : string)
  : option (list Task.t) :=
  match like_parse false (lower pattern) with
  | None => None
  | Some ts =>
      Some (order_by deadline_desc
              (filter (fun r => holds (search_where uid ts r)) (tasks d)))
  end.

Definition get_tasks_search (d : db) (user : jwt_payload) (keyword : option string)
  : response :=
  if falsy keyword then Res 400 (Text "Keyword is required for searching")
  else
    match select_search d (jwt_id user)
            (String.append "%" (String.append (text keyword) "%")) with
    | Some rows => Res 200 (Rows rows)
    | None => Res 500 (Text "Failed to search tasks")
    end.

(** *** POST /login *)

(** SELECT * FROM users WHERE email = $1 OR username = $1: the rows in
    the order of the table, or [None] when the store refuses the
    parameter. *)
Definition query_user (d : db) (x : string) : option (list User.t) :=
  match text_in x with
  | Some x' =>
      Some (filter (fun u => String.eqb (User.email u) x'
                             || String.eqb (User.username u) x')
              (users d))
  | None => None
  end.

(** The rows that the lookup returns: none when it raises. *)
Definition select_user (d : db) (x : string) : list User.t :=
  match query_user d x with
  | Some rows => rows
  | None => []
  end.

Definition post_login (d : db) (req : LoginBody.t) : response :=
  let '(LoginBody.mk emailOrUsername password) := req in
  if falsy emailOrUsername || falsy password then
    Res 400 (Text "Email/Username and password are required")
  else
    match query_user d (text emailOrUsername) with
    | None => Res 500 (Text "Internal server error")
    | Some [] => Res 404 (Text "User not found")
    | Some (user :: _) =>
        if negb (bcrypt_compare (text password) (User.password user)) then
          Res 401 (Text "Invalid password")
        else
          Res 200 (Token "Login successful"
                     (mkjwt (User.id user) (User.username user)))
    end.

End Handlers.

(** ** What the specification speaks of *)

(** The rows a response carries. *)
Definition rows_of (r : response) : list Task.t :=
  match sent r with
  | Rows l => l
  | _ => []
  end.

(** The enumerations of the data model: [priority] is one of the three
    levels; [status], when the row has one, is one of the three states. *)
Definition priority_ok (r : Task.t) : bool :=
  includes validPriorities (Task.priority r).

Definition status_ok (r : Task.t) : bool :=
  match Task.status r with
  | None => true
  | Some _ => includes validStatuses (Task.status r)
  end.

(** The validation of POST /tasks as one test. *)
Definition create_rejected (title status priority : option string) : bool :=
  falsy title || falsy priority
  || negb (includes validPriorities priority)
  || (truthy status && negb (includes validStatuses status)).

(** The rows of one owner, in heap order. *)
Definition owned (uid : Z) (d : db) : list Task.t :=
  filter (fun r => Task.user_id r =? uid) (tasks d).

(** The emptiness test of PUT /tasks/:id on the five fields. *)
Definition nothing_supplied (title description status priority deadline : option string)
  : bool :=
  falsy title && falsy description && falsy status && falsy priority
  && falsy deadline.

(** A text that fits a column [n] characters wide. *)
Definition fits (n : nat) (x : option string) : bool :=
  match x with
  | None => true
  | Some s => (String.length s <=? n)%nat
  end.

Definition row_fits (r : Task.t) : bool :=
  fits 255 (Some (Task.title r)) && fits 50 (Task.status r)
  && fits 50 (Task.priority r).

(** What the schema keeps true of [tasks]: [id] is a key drawn from the
    sequence, and every text fits its column. *)
Definition wf_db (d : db) : Prop :=
  NoDup (map Task.id (tasks d))
  /\ Forall (fun r => row_fits r = true /\ Task.id r <= tasks_id_seq d) (tasks d).

(** The value a column has after a partial update. *)
Definition pick {A : Type} (p : option A) (old : A) : A :=
  match p with
  | Some v => v
  | None => old
  end.

(** The specification's wording of a search hit: the keyword occurs in the
    text, letter case apart. *)
Fixpoint prefix_of (p s : list ascii) : bool :=
  match p, s with
  | [], _ => true
  | _ :: _, [] => false
  | c :: p', d :: s' => Ascii.eqb c d && prefix_of p' s'
  end.

Fixpoint occurs_in (p s : list ascii) : bool :=
  prefix_of p s
  || match s with
     | [] => false
     | _ :: s' => occurs_in p s'
     end.

Definition contains_ci (keyword : string) (x : option string) : bool :=
  match x with
  | None => false
  | Some s => occurs_in (lower keyword) (lower s)
  end.

Definition keyword_hit (keyword : string) (r : Task.t) : bool :=
  contains_ci keyword (Some (Task.title r))
  || contains_ci keyword (Task.description r).

(** A keyword none of whose characters the pattern language reads as
    anything but itself. *)
Definition like_special (c : ascii) : bool :=
  Ascii.eqb c "%"%char || Ascii.eqb c "_"%char || Ascii.eqb c "\"%char.

Definition plain_keyword (keyword : string) : bool :=
  forallb (fun c => negb (like_special c)) (list_ascii_of_string keyword).

(** A field without the byte 0. *)
Definition no_nul (x : option string) : bool :=
  match x with
  | None => true
  | Some s => negb (has_nul s)
  end.

(** A deadline field that the store can read, under a reading of
    timestamps: no deadline, or a text that is read as one. *)
Definition readable (reading : string -> option Z) (deadline : option string)
  : Prop :=
  match deadline with
  | None => True
  | Some s => has_nul s = false /\ reading s <> None
  end.

(** ASCII text: characters 1 to 127. *)
Definition ascii_text (s : string) : bool :=
  forallb (fun c => (1 <=? nat_of_ascii c)%nat && (nat_of_ascii c <=? 127)%nat)
    (list_ascii_of_string s).

(** A task whose title and description are ASCII text. *)
Definition ascii_task (r : Task.t) : bool :=
  ascii_text (Task.title r)
  && match Task.description r with
     | None => true
     | Some s => ascii_text s
     end.

(** ** Sample stores and library stand-ins, for the worked examples *)

Module Sample.

(** A reading of timestamps for examples that hold whatever the reading
    is: a run of decimal digits is that many seconds, anything else is
    refused. *)
Definition digit (c : ascii) : option Z :=
  let n := nat_of_ascii c in
  if ((48 <=? n) && (n <=? 57))%nat then Some (Z.of_nat (n - 48)) else None.

Fixpoint digits (acc : Z) (s : string) : option Z :=
  match s with
  | EmptyString => Some acc
  | String c s' =>
      match digit c with
      | Some k => digits (10 * acc + k) s'
      | None => None
      end
  end.

Definition seconds_in (s : string) : option Z :=
  match s with
  | EmptyString => None
  | String _ _ => digits 0 s
  end.

(** A reading that knows two calendar dates, as the store reads them
    (seconds since 1970), and refuses every other text; the examples that
    depend on the reading use these dates, or a text that is no date. *)
Definition two_dates_in (s : string) : option Z :=
  if String.eqb s "2025-01-31" then Some 1738281600
  else if String.eqb s "2025-06-30" then Some 1751241600
  else None.

(** A status of 51 characters. *)
Definition long_status : string :=
  "waiting for the review of the whole team, next week".

(** A password check for the examples: the hash of [pw] is ["h:" ++ pw]. *)
Definition tagged_compare (pw hash : string) : bool :=
  String.eqb hash (String.append "h:" pw).

Definition alice : User.t := User.mk 1 "alice" "a@x.com" "h:pw123456" 0.
Definition bob : User.t := User.mk 2 "bob" "b@x.com" "h:hunter22" 5.

Definition as_alice : jwt_payload := mkjwt 1 "alice".
Definition as_bob : jwt_payload := mkjwt 2 "bob".

(** The store after the two registrations. *)
Definition registered : db := mkdb [alice; bob] [] 0.

Definition milk : Task.t :=
  Task.mk 1 1 "buy milk" (Some "two litres") None (Some "low") None 10.

(** The store after alice created one task. *)
Definition one_task : db := mkdb [alice; bob] [milk] 1.

Definition report : Task.t :=
  Task.mk 2 2 "Quarterly report" None (Some "pending") (Some "high") (Some 500) 20.

Definition rent : Task.t :=
  Task.mk 3 1 "pay rent" None (Some "pending") (Some "high") (Some 300) 30.

(** Three tasks, two of alice and one of bob. *)
Definition three_tasks : db := mkdb [alice; bob] [milk; report; rent] 3.

(** Two users whom one login name reaches: the first by username, the
    second by email. *)
Definition mallory : User.t := User.mk 1 "carol@x.com" "m@x.com" "h:first-pw" 0.
Definition carol : User.t := User.mk 2 "carol" "carol@x.com" "h:second-pw" 5.
Definition colliding : db := mkdb [mallory; carol] [] 0.

End Sample.

(** ** The guard and the registration *)

Module RegisterBody.
Record t : Type := mk
  { username : option string;
    email : option string;
    password : option string }.
End RegisterBody.

(** The store together with the sequence behind [users.id]. *)
Record server : Type := mkserver
  { store : db;
    users_id_seq : Z }.

(** What [pool.query] raises, as the handler of POST /register tells the
    cases apart: [err.code === "23505"], or any other. *)
Inductive pg_error : Type :=
| UniqueViolation
| OtherError.

(** [s.split(" ")]: the pieces of [s] between single spaces; there is
    always one piece, and two spaces in a row enclose an empty one. *)
Fixpoint split_space (s : string) : list string :=
  match s with
  | EmptyString => [EmptyString]
  | String c s' =>
      if Ascii.eqb c " "%char then EmptyString :: split_space s'
      else
        match split_space s' with
        | w :: ws => String c w :: ws
        | [] => [String c EmptyString]
        end
  end.

(** An integer in a template literal. *)
Definition decimal (z : Z) : string := NilZero.string_of_int (Z.to_int z).

Section Accounts.

(** [bcrypt.hash password 10], by the salt that the call drew. *)
Variable bcrypt_hash : string -> string -> string.
(** [jwt.verify token secret]: the payload, or [None] when it reports an
    error (bad signature, malformed, expired). *)
Variable jwt_verify : string -> option jwt_payload.
(** The store's reading of a TIMESTAMP parameter, as for the handlers;
    what is proved of a run of requests holds for every reading. *)
Variable timestamp_in : string -> option Z.

(** *** authenticateToken *)

(** The guard of every task route: the answer it sends, or the payload
    it leaves in [req.user] before it calls [next]. *)
Definition authenticateToken (authorization : option string)
  : response + jwt_payload :=
  let token :=
    match authorization with
    | Some h => nth_error (split_space h) 1
    | None => None
    end in
  if falsy token then inl (Res 401 (Text "Access token required"))
  else
    match jwt_verify (text token) with
    | None => inl (Res 403 (Text "Invalid token"))
    | Some user => inr user
    end.

(** *** POST /register *)

(** INSERT INTO users (username, email, password) VALUES ($1, $2, $3)
    RETURNING id.  The three columns are VARCHAR(255).  When the
    parameters are bound, [id] takes the next value of its sequence and
    [created_at] the clock; [email] is UNIQUE, and a row refused for its
    email has used its sequence value. *)
Definition insert_user (s : server) (username email password : string) (now : Z)
  : server * (Z + pg_error) :=
  match varchar_in 255 username, varchar_in 255 email, varchar_in 255 password with
  | Some u, Some e, Some p =>
      let id := users_id_seq s + 1 in
      if existsb (fun x => String.eqb (User.email x) e) (users (store s)) then
        (mkserver (store s) id, inr UniqueViolation)
      else
        (mkserver
           (mkdb (users (store s) ++ [User.mk id u e p now])
              (tasks (store s)) (tasks_id_seq (store s)))
           id,
         inl id)
  | _, _, _ => (s, inr OtherError)
  end.

(** The handler answers 400 through [res.status(400).send(..)]; the
    [.json(..)] chained to it comes after the answer is sent.  In the
    [catch], the branch for errors other than 23505 names a variable
    [error] that is not declared: it raises before [res.status(500)] is
    reached, and no answer is sent ([None]).  A field of the body is a
    string here, so [typeof password !== "string"] adds nothing to
    [!password]. *)
Definition post_register (s : server) (req : RegisterBody.t) (salt : string) (now : Z)
  : server * option response :=
  let '(RegisterBody.mk username email password) := req in
  if falsy username || falsy email || falsy password then
    (s, Some (Res 400 (Text "All fields are required")))
  else
    match insert_user s (text username) (text email)
            (bcrypt_hash salt (text password)) now with
    | (s', inl id) =>
        (s', Some (Res 201 (Text (String.append "User registered with ID: " (decimal id)))))
    | (s', inr UniqueViolation) =>
        (s', Some (Res 409 (Text "Username or email already exists")))
    | (s', inr OtherError) => (s', None)
    end.

(** *** The task routes that write, as requests to one store *)

Inductive task_request : Type :=
| POST_tasks (user : jwt_payload) (req : TaskBody.t) (now : Z)
| PUT_tasks_id (user : jwt_payload) (id : route_id) (req : TaskBody.t)
| DELETE_tasks_id (user : jwt_payload) (id : route_id).

Definition serve (d : db) (q : task_request) : db * response :=
  match q with
  | POST_tasks user req now => post_tasks timestamp_in d user req now
  | PUT_tasks_id user id req => put_tasks_id timestamp_in d user id req
  | DELETE_tasks_id user id => delete_tasks_id d user id
  end.

(** The store after a run of requests, each served on the store the one
    before left. *)
Definition serve_all (d : db) (qs : list task_request) : db :=
  fold_left (fun d q => fst (serve d q)) qs d.

(** A run of registrations, each with its salt and time. *)
Definition register_all (s : server) (rs : list (RegisterBody.t * string * Z))
  : server :=
  fold_left (fun s r => fst (post_register s (fst (fst r)) (snd (fst r)) (snd r))) rs s.

End Accounts.

(** ** Terms of the further properties *)

(** The user of a request. *)
Definition requester (q : task_request) : jwt_payload :=
  match q with
  | POST_tasks user _ _ => user
  | PUT_tasks_id user _ _ => user
  | DELETE_tasks_id user _ => user
  end.


(** Every task belongs to a stored user. *)
Definition well_owned (d : db) : Prop :=
  Forall (fun r => existsb (fun u => User.id u =? Task.user_id r) (users d) = true)
    (tasks d).

(** What the schema keeps true of [users]: [id] and [email] are keys, the
    ids drawn from the sequence. *)
Definition wf_users (s : server) : Prop :=
  NoDup (map User.id (users (store s)))
  /\ NoDup (map User.email (users (store s)))
  /\ Forall (fun u => 0 < User.id u <= users_id_seq s) (users (store s))
  /\ 0 <= users_id_seq s.

Definition no_space (s : string) : bool :=
  forallb (fun c => negb (Ascii.eqb c " "%char)) (list_ascii_of_string s).

Definition no_backslash (s : string) : bool :=
  forallb (fun c => negb (Ascii.eqb c "\"%char)) (list_ascii_of_string s).

(** The reading of one pattern character that is not a backslash. *)
Definition like_tok_of (c : ascii) : like_tok :=
  if Ascii.eqb c "%"%char then LAny
  else if Ascii.eqb c "_"%char then LOne
  else LLit c.

(** Library stand-ins for the examples of the guard and the registration. *)
Module SampleAccounts.

(** The hash of [pw] is ["h:" ++ pw] whatever the salt, as
    [Sample.tagged_compare] expects. *)
Definition tagged_hash (salt pw : string) : string := String.append "h:" pw.

(** Two tokens are good. *)
Definition two_tokens (token : string) : option jwt_payload :=
  if String.eqb token "tok.alice" then Some Sample.as_alice
  else if String.eqb token "tok.bob" then Some Sample.as_bob
  else None.

Definition empty_server : server := mkserver (mkdb [] [] 0) 0.

End SampleAccounts.

(** * Properties *)

(** ** Fields, columns and conditions *)

Lemma falsy_some s : falsy (Some s) = true <-> s = "".
Proof. simpl. apply String.eqb_eq. Qed.

Lemma includes_falsy arr x :
  forallb (fun s => negb (String.eqb s "")) arr = true ->
  falsy x = true -> includes arr x = false.
Proof.
  intros Harr Hx. destruct x as [s|]; [|reflexivity].
  apply falsy_some in Hx. subst s. simpl.
  induction arr as [|a arr IH]; [reflexivity|].
  simpl in Harr. apply andb_true_iff in Harr as [Ha Harr].
  destruct a as [|c a]; [discriminate|]. simpl. now apply IH.
Qed.

(** What is true of every member of an array is true of a field that the
    array includes. *)
Lemma includes_member (P : string -> bool) arr x :
  forallb P arr = true -> includes arr x = true ->
  exists s, x = Some s /\ P s = true.
Proof.
  intros Harr H. destruct x as [s|]; [|discriminate]. exists s.
  split; [reflexivity|]. simpl in H.
  apply existsb_exists in H as (a & Ha & E).
  apply String.eqb_eq in E. subst a.
  rewrite forallb_forall in Harr. now apply Harr.
Qed.

Lemma varchar_fits n s :
  (String.length s <=? n)%nat = true -> varchar n s = Some s.
Proof. intros H. unfold varchar. now rewrite H. Qed.

Lemma length_substring_le : forall s n m,
  (String.length (substring n m s) <= m)%nat.
Proof.
  induction s as [|c s IH]; intros n m.
  - destruct n, m; simpl; lia.
  - destruct n as [|n]; destruct m as [|m]; simpl; try lia.
    + specialize (IH 0%nat m). lia.
    + apply IH.
    + apply IH.
Qed.

(** Whatever a [VARCHAR(n)] column accepts fits it. *)
Lemma varchar_some_fits n s t :
  varchar n s = Some t -> (String.length t <=? n)%nat = true.
Proof.
  unfold varchar. destruct (String.length s <=? n)%nat eqn:E.
  - intros [= <-]. exact E.
  - destruct (all_spaces _); [|discriminate].
    intros [= <-]. apply Nat.leb_le. apply length_substring_le.
Qed.

(** ** Binding *)

Lemma varchar_in_fits n s :
  has_nul s = false -> (String.length s <=? n)%nat = true ->
  varchar_in n s = Some s.
Proof. intros H L. unfold varchar_in. rewrite H. now apply varchar_fits. Qed.

Lemma varchar_in_some n s t :
  varchar_in n s = Some t -> has_nul s = false /\ varchar n s = Some t.
Proof. unfold varchar_in. destruct (has_nul s); [discriminate | auto]. Qed.

Lemma bind_varchar_fits n x :
  no_nul x = true -> fits n x = true -> bind (varchar_in n) x = Some x.
Proof.
  destruct x as [s|]; simpl; [|reflexivity].
  intros H L. apply negb_true_iff in H. now rewrite varchar_in_fits.
Qed.

Lemma bind_text_clean x : no_nul x = true -> bind text_in x = Some x.
Proof.
  destruct x as [s|]; simpl; [|reflexivity].
  intros H. apply negb_true_iff in H. unfold text_in. now rewrite H.
Qed.

Lemma bind_text_some x y : bind text_in x = Some y -> y = x /\ no_nul x = true.
Proof.
  destruct x as [s|]; simpl; [|now intros [= <-]].
  unfold text_in. destruct (has_nul s); [discriminate|]. now intros [= <-].
Qed.

(** A bound parameter of a [VARCHAR(n)] column fits the column. *)
Lemma bind_varchar_some_fits n x y :
  bind (varchar_in n) x = Some y -> fits n y = true.
Proof.
  destruct x as [s|]; simpl; [|now intros [= <-]].
  destruct (varchar_in n s) as [t|] eqn:E; simpl; [|discriminate].
  intros [= <-]. simpl. apply varchar_in_some in E as [_ E].
  eapply varchar_some_fits; exact E.
Qed.

Lemma bind_timestamp_readable ti deadline :
  readable ti deadline <-> bind_timestamp ti deadline <> None.
Proof.
  unfold readable, bind_timestamp, bind. destruct deadline as [s|].
  - destruct (has_nul s); cbn.
    + split; [intros [F _]; discriminate | intros F; now elim F].
    + destruct (ti s); cbn; split; try discriminate; try tauto.
      intros _. split; [reflexivity | discriminate].
  - split; [discriminate | trivial].
Qed.

Lemma bind_task_some ti title description status priority deadline t ds st pr dl :
  bind_task ti title description status priority deadline = Some (t, ds, st, pr, dl)
  <-> bind (varchar_in 255) title = Some t
      /\ bind text_in description = Some ds
      /\ bind (varchar_in 50) status = Some st
      /\ bind (varchar_in 50) priority = Some pr
      /\ bind_timestamp ti deadline = Some dl.
Proof.
  unfold bind_task.
  destruct (bind (varchar_in 255) title), (bind text_in description),
           (bind (varchar_in 50) status), (bind (varchar_in 50) priority),
           (bind_timestamp ti deadline);
    split; try discriminate; try (intros (? & ? & ? & ? & ?); discriminate).
  - intros [= -> -> -> -> ->]. auto.
  - intros (A & B & C & D & E). congruence.
Qed.

(** ** ORDER BY yields the same rows, in order *)

Section OrderByFacts.
Context {A : Type} (before : A -> A -> bool).

Lemma insert_row_perm x l : Permutation (insert_row before x l) (x :: l).
Proof.
  induction l as [|y l IH]; simpl; [apply Permutation_refl|].
  destruct (before x y); [apply Permutation_refl|].
  eapply perm_trans; [apply perm_skip, IH | apply perm_swap].
Qed.

Lemma order_by_perm l : Permutation (order_by before l) l.
Proof.
  induction l as [|x l IH]; simpl; [constructor|].
  eapply perm_trans; [apply insert_row_perm | now apply perm_skip].
Qed.

Lemma order_by_in l x : In x (order_by before l) <-> In x l.
Proof.
  split; apply Permutation_in;
    [apply order_by_perm | apply Permutation_sym, order_by_perm].
Qed.

Hypothesis before_total : forall a b, before a b = true \/ before b a = true.

Lemma insert_row_sorted x l :
  Sorted (fun a b => before a b = true) l ->
  Sorted (fun a b => before a b = true) (insert_row before x l).
Proof.
  induction 1 as [|y l Hl IH Hy]; simpl.
  - repeat constructor.
  - destruct (before x y) eqn:E.
    + constructor; [now constructor | now constructor].
    + constructor; [exact IH|].
      destruct (before_total x y) as [F|F]; [congruence|].
      destruct Hy as [|z l' Hz]; simpl.
      * now constructor.
      * destruct (before x z); now constructor.
  Qed.

Lemma order_by_sorted l : Sorted (fun a b => before a b = true) (order_by before l).
Proof.
  induction l as [|x l IH]; simpl; [constructor | now apply insert_row_sorted].
Qed.

End OrderByFacts.

Lemma created_at_desc_total a b :
  created_at_desc a b = true \/ created_at_desc b a = true.
Proof. unfold created_at_desc. rewrite !Z.leb_le. lia. Qed.

Lemma deadline_desc_total a b :
  deadline_desc a b = true \/ deadline_desc b a = true.
Proof.
  unfold deadline_desc.
  destruct (Task.deadline a), (Task.deadline b); auto.
  rewrite !Z.leb_le. lia.
Qed.

(** ** POST /tasks *)

Lemma post_tasks_rejected ti d user title description status priority deadline now :
  create_rejected title status priority = true ->
  exists msg,
    post_tasks ti d user (TaskBody.mk title description status priority deadline) now
    = (d, Res 400 (Text msg)).
Proof.
  unfold create_rejected, post_tasks. intros H.
  destruct (falsy title || falsy priority) eqn:E1; [eauto|].
  destruct (negb (includes validPriorities priority)) eqn:E2; [eauto|].
  destruct (truthy status && negb (includes validStatuses status)) eqn:E3; [eauto|].
  discriminate.
Qed.

Lemma post_tasks_accepted ti d user title description status priority deadline now :
  create_rejected title status priority = false ->
  post_tasks ti d user (TaskBody.mk title description status priority deadline) now
  = match insert_task ti d (jwt_id user) title description status priority deadline now with
    | (d', Some rows) => (d', Res 201 (first_row rows))
    | (d', None) => (d', Res 500 (Text "Failed to create task"))
    end.
Proof.
  unfold create_rejected, post_tasks. intros H.
  destruct (falsy title || falsy priority); [discriminate|].
  destruct (negb (includes validPriorities priority)); [discriminate|].
  destruct (truthy status && negb (includes validStatuses status)); [discriminate|].
  reflexivity.
Qed.

(** What a successful INSERT leaves and returns. *)
Lemma insert_task_some ti d uid title description status priority deadline now d' rows :
  insert_task ti d uid title description status priority deadline now = (d', Some rows) ->
  exists t ds st pr dl,
    let r := Task.mk (tasks_id_seq d + 1) uid t ds st pr dl now in
    rows = [r]
    /\ d' = mkdb (users d) (tasks d ++ [r]) (tasks_id_seq d + 1)
    /\ bind_task ti title description status priority deadline
       = Some (Some t, ds, st, pr, dl)
    /\ existsb (fun u => User.id u =? uid) (users d) = true.
Proof.
  unfold insert_task.
  destruct (bind_task ti title description status priority deadline)
    as [[[[[t ds] st] pr] dl]|]; [|discriminate].
  destruct t as [t|]; [|discriminate].
  destruct (existsb _ (users d)) eqn:E; [|discriminate].
  intros [= <- <-]. exists t, ds, st, pr, dl. cbn. auto.
Qed.

(** A failed INSERT leaves both tables as they were, and the sequence
    where it was or one further. *)
Lemma insert_task_none ti d uid title description status priority deadline now d' :
  insert_task ti d uid title description status priority deadline now = (d', None) ->
  tasks d' = tasks d /\ users d' = users d
  /\ tasks_id_seq d <= tasks_id_seq d'.
Proof.
  unfold insert_task.
  destruct (bind_task ti title description status priority deadline)
    as [[[[[t ds] st] pr] dl]|]; [|intros [= <-]; repeat split; lia].
  destruct t as [t|]; [|intros [= <-]; cbn; repeat split; lia].
  destruct (existsb _ (users d)); [discriminate|].
  intros [= <-]; cbn; repeat split; lia.
Qed.

Lemma validPriorities_bind :
  forallb (fun s => negb (has_nul s) && (String.length s <=? 50)%nat)
    validPriorities = true.
Proof. reflexivity. Qed.

Lemma validStatuses_bind :
  forallb (fun s => negb (has_nul s) && (String.length s <=? 50)%nat)
    validStatuses = true.
Proof. reflexivity. Qed.

(** A priority that passed the validation is one of the three levels:
    the store takes it as it is. *)
Lemma accepted_priority_binds priority :
  includes validPriorities priority = true ->
  bind (varchar_in 50) priority = Some priority.
Proof.
  intros H.
  destruct (includes_member _ _ _ validPriorities_bind H) as (s & -> & P).
  apply andb_true_iff in P as [P1 P2].
  apply bind_varchar_fits; [exact P1 | exact P2].
Qed.

(** A status that passed the validation is absent, empty or one of the
    three states: the store takes it as it is. *)
Lemma accepted_status_binds status :
  truthy status && negb (includes validStatuses status) = false ->
  bind (varchar_in 50) status = Some status.
Proof.
  intros H. apply andb_false_iff in H as [H|H].
  - unfold truthy in H. apply negb_false_iff in H.
    destruct status as [s|]; [|reflexivity].
    apply falsy_some in H. now subst.
  - apply negb_false_iff in H.
    destruct (includes_member _ _ _ validStatuses_bind H) as (s & -> & P).
    apply andb_true_iff in P as [P1 P2].
    apply bind_varchar_fits; [exact P1 | exact P2].
Qed.

(** What passing the validation of POST /tasks says of the fields. *)
Lemma create_accepted_fields title status priority :
  create_rejected title status priority = false ->
  (exists t, title = Some t /\ t <> "")
  /\ includes validPriorities priority = true
  /\ bind (varchar_in 50) priority = Some priority
  /\ bind (varchar_in 50) status = Some status.
Proof.
  unfold create_rejected. intros R.
  apply orb_false_iff in R as [R Rs]. apply orb_false_iff in R as [R Rp].
  apply orb_false_iff in R as [Rt _]. apply negb_false_iff in Rp.
  split; [|split; [exact Rp|split]].
  - destruct title as [t|]; [|discriminate]. exists t. split; [reflexivity|].
    intros ->. discriminate.
  - now apply accepted_priority_binds.
  - now apply accepted_status_binds.
Qed.

(** The outcomes of POST /tasks.  It answers 400 exactly when the title
    or the priority is falsy, or the priority is none of low, medium, high,
    or a truthy status is none of pending, in-progress, completed, and then
    the store is as it was.  When it answers with success the status is 201
    and the body is the row it added to [tasks]: that row belongs to the
    caller, has the next value of the id sequence and the clock's time, and
    holds the fields of the request.  A request that passes the validation
    succeeds when its title and description have no byte 0, the title fits
    its column, the deadline reads as a timestamp and the caller is a
    stored user. *)
Lemma post_tasks_outcome
    ti d user title description status priority deadline now :
  let out :=
    post_tasks ti d user (TaskBody.mk title description status priority deadline) now in
  (fails (snd out) ValidationError <->
     falsy title = true \/ falsy priority = true
     \/ includes validPriorities priority = false
     \/ (truthy status = true /\ includes validStatuses status = false))
  /\ (fails (snd out) ValidationError -> fst out = d)
  /\ (succeeds (snd out) ->
      exists r,
        snd out = Res 201 (Row r)
        /\ tasks (fst out) = tasks d ++ [r]
        /\ users (fst out) = users d
        /\ Task.user_id r = jwt_id user
        /\ Task.id r = tasks_id_seq d + 1
        /\ Task.created_at r = now
        /\ varchar 255 (text title) = Some (Task.title r)
        /\ Task.description r = description
        /\ Task.status r = status
        /\ Task.priority r = priority
        /\ bind_timestamp ti deadline = Some (Task.deadline r))
  /\ (create_rejected title status priority = false ->
      no_nul title = true -> no_nul description = true ->
      fits 255 title = true ->
      readable ti deadline ->
      existsb (fun u => User.id u =? jwt_id user) (users d) = true ->
      succeeds (snd out)).
Proof.
  intros out.
  assert (Hrej : create_rejected title status priority = true <->
     falsy title = true \/ falsy priority = true
     \/ includes validPriorities priority = false
     \/ (truthy status = true /\ includes validStatuses status = false)).
  { unfold create_rejected. rewrite !orb_true_iff, andb_true_iff, !negb_true_iff.
    tauto. }
  destruct (create_rejected title status priority) eqn:R.
  - destruct (post_tasks_rejected ti d user title description status priority
                deadline now R) as [msg E].
    subst out. rewrite E. cbn. unfold fails, succeeds. cbn.
    repeat split; try tauto; try lia; try discriminate.
  - pose proof (post_tasks_accepted ti d user title description status priority
                  deadline now R) as E.
    destruct (create_accepted_fields _ _ _ R) as ((t & -> & Hne) & _ & Hpr & Hst).
    subst out. rewrite E. clear E.
    destruct (insert_task ti d (jwt_id user) (Some t) description status priority
                deadline now) as [d' [rows|]] eqn:I.
    + apply insert_task_some in I as (t' & ds & st & pr & dl & I).
      cbn zeta in I. destruct I as (-> & -> & B & Hu).
      apply bind_task_some in B as (Bt & Bd & Bs & Bp & Bl).
      rewrite Hst in Bs. rewrite Hpr in Bp. injection Bs as <-. injection Bp as <-.
      apply bind_text_some in Bd as [-> _].
      cbn in Bt. destruct (varchar_in 255 t) as [t0|] eqn:Et; [|discriminate].
      cbn in Bt. injection Bt as ->. apply varchar_in_some in Et as [_ Et].
      cbn. unfold fails, succeeds. cbn.
      split; [|split; [|split]].
      * split; [discriminate | intros F; apply Hrej in F; discriminate F].
      * discriminate.
      * intros _. eexists. repeat split; try reflexivity; assumption.
      * intros; lia.
    + cbn. unfold fails, succeeds. cbn.
      split; [|split; [|split]].
      * split; [discriminate | intros F; apply Hrej in F; discriminate F].
      * discriminate.
      * lia.
      * intros _ Nt Nd Hfit Hread Huser. exfalso.
        apply bind_timestamp_readable in Hread.
        destruct (bind_timestamp ti deadline) as [dl|] eqn:Bl; [|now apply Hread].
        assert (B : bind_task ti (Some t) description status priority deadline
                    = Some (Some t, description, status, priority, dl)).
        { apply bind_task_some.
          rewrite (bind_varchar_fits 255 (Some t) Nt Hfit), (bind_text_clean _ Nd).
          auto. }
        unfold insert_task in I. rewrite B, Huser in I. discriminate I.
Qed.

(** POST /tasks stores no priority outside the three levels: the row it
    appends has passed [validPriorities.includes]. *)
Lemma post_tasks_row_priority ti d user req now r :
  snd (post_tasks ti d user req now) = Res 201 (Row r) ->
  priority_ok r = true.
Proof.
  destruct req as [title description status priority deadline].
  destruct (create_rejected title status priority) eqn:R.
  - destruct (post_tasks_rejected ti d user title description status priority
                deadline now R) as [msg ->]. discriminate.
  - rewrite (post_tasks_accepted _ _ _ _ _ _ _ _ _ R).
    destruct (create_accepted_fields _ _ _ R) as (_ & Hin & Hpr & _).
    destruct (insert_task _ _ _ _ _ _ _ _ _) as [d' [rows|]] eqn:I;
      [|discriminate].
    apply insert_task_some in I as (t & ds & st & pr & dl & I).
    cbv zeta in I. destruct I as (-> & _ & B & _).
    apply bind_task_some in B as (_ & _ & _ & Bp & _).
    rewrite Hpr in Bp. injection Bp as <-. cbn. intros [= <-]. exact Hin.
Qed.

(** C7, for requests whose fields are strings and whose status is not the
    empty string.  POST /tasks answers 400 exactly when the title or the
    priority is missing or empty, or the priority is none of low, medium,
    high, or there is a status and it is none of pending, in-progress,
    completed; the store is then as it was.  When it answers with success
    the status is 201 and the body is the one row it added to [tasks],
    which belongs to the caller and has the next id of the sequence, the
    clock's time and the fields of the request.  It does succeed when the
    request passes these tests, its title and description have no byte 0,
    the title fits its column, the store reads the deadline as a timestamp
    and the caller is a stored user. *)
Theorem post_tasks_validates_then_inserts
    ti d user title description status priority deadline now :
  status <> Some "" ->
  let out :=
    post_tasks ti d user (TaskBody.mk title description status priority deadline) now in
  (fails (snd out) ValidationError <->
     falsy title = true \/ falsy priority = true
     \/ includes validPriorities priority = false
     \/ (status <> None /\ includes validStatuses status = false))
  /\ (fails (snd out) ValidationError -> fst out = d)
  /\ (succeeds (snd out) ->
      exists r,
        snd out = Res 201 (Row r)
        /\ In r (tasks (fst out))
        /\ Permutation (tasks (fst out)) (r :: tasks d)
        /\ Task.user_id r = jwt_id user
        /\ Task.id r = tasks_id_seq d + 1
        /\ Task.created_at r = now
        /\ varchar 255 (text title) = Some (Task.title r)
        /\ Task.description r = description
        /\ Task.status r = status
        /\ Task.priority r = priority
        /\ bind_timestamp ti deadline = Some (Task.deadline r))
  /\ (~ fails (snd out) ValidationError ->
      no_nul title = true -> no_nul description = true ->
      fits 255 title = true ->
      readable ti deadline ->
      existsb (fun u => User.id u =? jwt_id user) (users d) = true ->
      succeeds (snd out)).
Proof.
  intros Hs out.
  destruct (post_tasks_outcome ti d user title description status priority
              deadline now) as (V & U & S & A).
  fold out in V, U, S, A.
  assert (T : truthy status = true <-> status <> None).
  { unfold truthy. destruct status as [s|]; simpl.
    - destruct (String.eqb_spec s ""); [subst; now elim Hs|].
      split; [discriminate | reflexivity].
    - split; [discriminate | intros F; now elim F]. }
  split; [|split; [exact U|split]].
  - rewrite V. rewrite T. tauto.
  - intros Hok. destruct (S Hok) as (r & E & Ht & Hu & rest).
    exists r. split; [exact E|]. split; [|split; [|exact rest]].
    + rewrite Ht. apply in_or_app. right. now left.
    + rewrite Ht. apply Permutation_sym, Permutation_cons_append.
  - intros Hv. apply A.
    destruct (create_rejected title status priority) eqn:R; [|reflexivity].
    exfalso. apply Hv, V.
    unfold create_rejected in R.
    rewrite !orb_true_iff, andb_true_iff, !negb_true_iff in R. tauto.
Qed.

(** A create with every field answers 201; one with a priority outside
    the three levels answers 400. *)
Lemma post_tasks_validates_then_inserts_witness :
  succeeds
    (snd (post_tasks Sample.two_dates_in Sample.registered Sample.as_alice
            (TaskBody.mk (Some "buy milk") (Some "two litres") (Some "pending")
               (Some "low") (Some "2025-06-30")) 10))
  /\ fails
       (snd (post_tasks Sample.two_dates_in Sample.registered Sample.as_alice
               (TaskBody.mk (Some "buy milk") None None (Some "urgent") None) 10))
       ValidationError.
Proof.
  split.
  - apply (proj2 (proj2 (proj2 (post_tasks_validates_then_inserts
             Sample.two_dates_in Sample.registered Sample.as_alice
             (Some "buy milk") (Some "two litres") (Some "pending")
             (Some "low") (Some "2025-06-30") 10 ltac:(discriminate))))).
    + discriminate.
    + reflexivity.
    + reflexivity.
    + reflexivity.
    + split; [reflexivity | discriminate].
    + reflexivity.
  - apply (proj2 (proj1 (post_tasks_validates_then_inserts
             Sample.two_dates_in Sample.registered Sample.as_alice
             (Some "buy milk") None None (Some "urgent") None 10
             ltac:(discriminate)))).
    right. right. left. reflexivity.
Defined.

(** Against C7 as it is worded.  A create whose status is the empty
    string has a status, which is none of the three states; it is answered
    201 and the row is stored with that status.  A create whose title is
    the empty string has a title, and a priority of the enumeration, and no
    status; it is answered 400. *)
Lemma post_tasks_empty_status_counterexample :
  let r := Task.mk 1 1 "buy milk" None (Some "") (Some "low") None 10 in
  post_tasks Sample.two_dates_in Sample.registered Sample.as_alice
    (TaskBody.mk (Some "buy milk") None (Some "") (Some "low") None) 10
  = (mkdb (users Sample.registered) [r] 1, Res 201 (Row r))
  /\ includes validStatuses (Some "") = false
  /\ status_ok r = false
  /\ post_tasks Sample.two_dates_in Sample.registered Sample.as_alice
       (TaskBody.mk (Some "") None None (Some "low") None) 10
     = (Sample.registered, Res 400 (Text "Title and priority are required")).
Proof. cbv zeta. repeat split. Qed.

(** ** PUT /tasks/:id *)

(** C1. The enumerations do not survive an update.  After alice creates
    a task of priority low, the PUT with priority [urgent] and status
    [archived] answers 200 and leaves exactly that in the stored row: the
    handler of PUT makes none of the tests that the handler of POST makes. *)
Theorem put_tasks_id_stores_any_priority ti :
  let d1 := fst (post_tasks ti Sample.registered Sample.as_alice
                   (TaskBody.mk (Some "buy milk") None None (Some "low") None) 10) in
  let out := put_tasks_id ti d1 Sample.as_alice 1
               (TaskBody.mk None None (Some "archived") (Some "urgent") None) in
  let r := Task.mk 1 1 "buy milk" None (Some "archived") (Some "urgent") None 10 in
  out = (mkdb (users Sample.registered) [r] 1, Res 200 (Row r))
  /\ priority_ok r = false
  /\ status_ok r = false.
Proof. cbv zeta. repeat split. Qed.

(** C9. A PUT whose five fields are all the empty string is answered as
    a PUT with no field at all: 400, and the store as it was.  The same
    holds of every request none of whose fields is truthy. *)
Theorem put_tasks_id_empty_strings_rejected ti d user id :
  let empty := TaskBody.mk (Some "") (Some "") (Some "") (Some "") (Some "") in
  let none := TaskBody.mk None None None None None in
  put_tasks_id ti d user id empty
  = (d, Res 400 (Text "At least one field must be provided to update"))
  /\ put_tasks_id ti d user id empty = put_tasks_id ti d user id none
  /\ fails (snd (put_tasks_id ti d user id empty)) ValidationError
  /\ (forall title description status priority deadline,
        nothing_supplied title description status priority deadline = true ->
        put_tasks_id ti d user id
          (TaskBody.mk title description status priority deadline)
        = (d, Res 400 (Text "At least one field must be provided to update"))).
Proof.
  cbv zeta. repeat split.
  intros title description status priority deadline H.
  unfold put_tasks_id. unfold nothing_supplied in H. now rewrite H.
Qed.

(** *** Lists of rows *)

Lemma filter_nil_none {A : Type} (f : A -> bool) l :
  filter f l = [] -> forall y, In y l -> f y = false.
Proof.
  intros E y Hy. destruct (f y) eqn:F; [|reflexivity].
  assert (I : In y (filter f l)) by (apply filter_In; auto).
  now rewrite E in I.
Qed.

Lemma set_tasks_same d : set_tasks d (tasks d) = d.
Proof. now destruct d. Qed.

Lemma filter_all {A : Type} (f : A -> bool) l :
  (forall y, In y l -> f y = true) -> filter f l = l.
Proof.
  induction l as [|a l IH]; simpl; intros H; [reflexivity|].
  rewrite (H a (or_introl eq_refl)). f_equal. apply IH.
  intros y Hy. apply H. now right.
Qed.

(** The rows that a condition selects and the others make up the list. *)
Lemma filter_split_perm {A : Type} (f : A -> bool) l :
  Permutation (filter (fun x => negb (f x)) l ++ filter f l) l.
Proof.
  induction l as [|a l IH]; simpl; [constructor|].
  destruct (f a); simpl.
  - apply Permutation_sym. eapply perm_trans; [|apply Permutation_middle].
    apply perm_skip. now apply Permutation_sym.
  - now apply perm_skip.
Qed.

(** Taking out rows that a selection would not keep does not change the
    selection. *)
Lemma filter_filter_out {A : Type} (hit q : A -> bool) l :
  (forall x, hit x = true -> q x = false) ->
  filter q (filter (fun x => negb (hit x)) l) = filter q l.
Proof.
  intros H. induction l as [|a l IH]; simpl; [reflexivity|].
  destruct (hit a) eqn:E; simpl.
  - now rewrite (H a E).
  - destruct (q a); now rewrite IH.
Qed.

Lemma filter_idem {A : Type} (f : A -> bool) l :
  filter f (filter f l) = filter f l.
Proof.
  induction l as [|a l IH]; simpl; [reflexivity|].
  destruct (f a) eqn:E; simpl; [rewrite E; now f_equal | exact IH].
Qed.

(** *** [id] is a key *)

Lemma nodup_id_inj (l : list Task.t) x y :
  NoDup (map Task.id l) -> In x l -> In y l -> Task.id x = Task.id y -> x = y.
Proof.
  induction l as [|a l IH]; simpl; [tauto|].
  intros N Hx Hy E. inversion N as [|? ? Ha N']; subst.
  destruct Hx as [->|Hx], Hy as [->|Hy]; auto.
  - exfalso. apply Ha. rewrite E. now apply in_map.
  - exfalso. apply Ha. rewrite <- E. now apply in_map.
Qed.

Lemma targets_own r : targets (Task.id r) (Task.user_id r) r = true.
Proof. unfold targets. now rewrite !Z.eqb_refl. Qed.

Lemma targets_key (l : list Task.t) r x :
  NoDup (map Task.id l) -> In r l -> In x l ->
  targets (Task.id r) (Task.user_id r) x = (Task.id x =? Task.id r).
Proof.
  intros N Hr Hx. unfold targets.
  destruct (Task.id x =? Task.id r) eqn:E; [|reflexivity].
  apply Z.eqb_eq in E. rewrite (nodup_id_inj l x r N Hx Hr E).
  now rewrite Z.eqb_refl.
Qed.

Lemma filter_none {A : Type} (f : A -> bool) l :
  (forall y, In y l -> f y = false) -> filter f l = [].
Proof.
  induction l as [|a l IH]; simpl; intros H; [reflexivity|].
  rewrite (H a (or_introl eq_refl)). apply IH. intros y Hy. apply H. now right.
Qed.

Lemma filter_targets_key (l : list Task.t) r :
  NoDup (map Task.id l) -> In r l ->
  filter (targets (Task.id r) (Task.user_id r)) l = [r].
Proof.
  induction l as [|a l IH]; simpl; [tauto|].
  intros N Hr. inversion N as [|? ? Ha N']; subst.
  destruct (targets (Task.id r) (Task.user_id r) a) eqn:E.
  - assert (a = r) as ->.
    { apply (nodup_id_inj (a :: l)); simpl; auto.
      unfold targets in E. apply andb_true_iff in E as [E _].
      now apply Z.eqb_eq in E. }
    f_equal. apply filter_none. intros y Hy.
    unfold targets. destruct (Task.id y =? Task.id r) eqn:F; [|reflexivity].
    exfalso. apply Ha. apply Z.eqb_eq in F. rewrite <- F. now apply in_map.
  - destruct Hr as [->|Hr]; [now rewrite targets_own in E | now apply IH].
Qed.

Lemma filter_other_key (l : list Task.t) r :
  NoDup (map Task.id l) -> In r l ->
  filter (fun x => negb (targets (Task.id r) (Task.user_id r) x)) l
  = filter (fun x => negb (Task.id x =? Task.id r)) l.
Proof.
  intros N Hr. apply filter_ext_in. intros x Hx.
  now rewrite (targets_key _ _ _ N Hr Hx).
Qed.

(** *** The UPDATE statement *)

Lemma update_row_targets id uid t ds st pr dl r :
  targets id uid (update_row t ds st pr dl r) = targets id uid r.
Proof. reflexivity. Qed.

(** The rows an UPDATE has written meet its condition; the others do not. *)
Lemma filter_written (hit : Task.t -> bool) (upd : Task.t -> Task.t) l :
  (forall x, hit (upd x) = hit x) ->
  filter hit (map upd (filter hit l)) = map upd (filter hit l)
  /\ filter (fun x => negb (hit x)) (map upd (filter hit l)) = [].
Proof.
  intros H. split.
  - apply filter_all. intros y Hy. apply in_map_iff in Hy as (x & <- & Hx).
    rewrite H. now apply filter_In in Hx.
  - apply filter_none. intros y Hy. apply in_map_iff in Hy as (x & <- & Hx).
    rewrite H. apply filter_In in Hx as [_ Hx]. now rewrite Hx.
Qed.

(** The outcomes of a PUT: 400 for a request with nothing in it; 500
    when the store refuses a field or the id, whatever the table holds; and
    otherwise the rows of that id and owner written anew after the others,
    with 404 when there is none. *)
Lemma put_tasks_id_cases ti d user id title description status priority deadline :
  let out := put_tasks_id ti d user id
               (TaskBody.mk title description status priority deadline) in
  (nothing_supplied title description status priority deadline = true
   /\ out = (d, Res 400 (Text "At least one field must be provided to update")))
  \/ (nothing_supplied title description status priority deadline = false
      /\ (bind_task ti title description status priority deadline = None
          \/ bind_int4 id = None)
      /\ out = (d, Res 500 (Text "Failed to update task")))
  \/ (nothing_supplied title description status priority deadline = false
      /\ exists t ds st pr dl n,
           bind_task ti title description status priority deadline
           = Some (t, ds, st, pr, dl)
           /\ bind_int4 id = Some n
           /\ out
              = (set_tasks d
                   (filter (fun r => negb (targets n (jwt_id user) r)) (tasks d)
                    ++ map (update_row t ds st pr dl)
                         (filter (targets n (jwt_id user)) (tasks d))),
                 match map (update_row t ds st pr dl)
                         (filter (targets n (jwt_id user)) (tasks d)) with
                 | [] => Res 404 (Text "Task not found or not authorized to update")
                 | r :: _ => Res 200 (Row r)
                 end)).
Proof.
  cbv zeta. unfold put_tasks_id, nothing_supplied.
  destruct (falsy title && _ && _ && _ && _); [now left | right].
  unfold update_task.
  destruct (bind_task ti title description status priority deadline)
    as [[[[[t ds] st] pr] dl]|]; [|left; auto].
  destruct (bind_int4 id) as [n|]; [|left; auto].
  right. split; [reflexivity|]. exists t, ds, st, pr, dl, n.
  split; [reflexivity|]. split; [reflexivity|].
  now destruct (map _ (filter _ (tasks d))).
Qed.

(** The store after a PUT: as it was, or with the rows of that id and
    owner written anew after the others. *)
Lemma put_tasks_id_store ti d user id req :
  fst (put_tasks_id ti d user id req) = d
  \/ exists t ds st pr dl n,
       bind_task ti (TaskBody.title req) (TaskBody.description req)
         (TaskBody.status req) (TaskBody.priority req) (TaskBody.deadline req)
       = Some (t, ds, st, pr, dl)
       /\ bind_int4 id = Some n
       /\ fst (put_tasks_id ti d user id req)
          = set_tasks d
              (filter (fun r => negb (targets n (jwt_id user) r)) (tasks d)
               ++ map (update_row t ds st pr dl)
                    (filter (targets n (jwt_id user)) (tasks d))).
Proof.
  destruct req as [title description status priority deadline].
  destruct (put_tasks_id_cases ti d user id title description status priority
              deadline) as [[_ E]|[(_ & _ & E)|(_ & t & ds & st & pr & dl & n & B & I & E)]];
    cbv zeta in E; rewrite E; [now left | now left | right].
  exists t, ds, st, pr, dl, n. auto.
Qed.

(** Fields without the byte 0 that fit their columns are bound as they
    are. *)
Lemma bind_task_fits ti title description status priority deadline dl :
  no_nul title = true -> no_nul description = true ->
  no_nul status = true -> no_nul priority = true ->
  fits 255 title = true -> fits 50 status = true -> fits 50 priority = true ->
  bind_timestamp ti deadline = Some dl ->
  bind_task ti title description status priority deadline
  = Some (title, description, status, priority, dl).
Proof.
  intros Nt Nd Ns Np Ft Fs Fp B. apply bind_task_some.
  rewrite (bind_varchar_fits _ _ Nt Ft), (bind_text_clean _ Nd),
          (bind_varchar_fits _ _ Ns Fs), (bind_varchar_fits _ _ Np Fp).
  auto.
Qed.

Lemma int4_range n : int4 n = true <-> -2147483648 <= n <= 2147483647.
Proof. unfold int4. rewrite andb_true_iff, !Z.leb_le. tauto. Qed.

Lemma bind_int4_range n :
  -2147483648 <= n <= 2147483647 -> bind_int4 n = Some n.
Proof. intros H. cbn. apply int4_range in H. now rewrite H. Qed.

Lemma bind_int4_outside n :
  n < -2147483648 \/ 2147483647 < n -> bind_int4 n = None.
Proof.
  intros H. cbn. destruct (int4 n) eqn:E; [|reflexivity].
  apply int4_range in E. lia.
Qed.

Lemma bind_int4_some id n :
  bind_int4 id = Some n -> id = IdNumber n /\ -2147483648 <= n <= 2147483647.
Proof.
  destruct id as [m|]; cbn; [|discriminate].
  destruct (int4 m) eqn:E; [|discriminate]. intros [= <-].
  split; [reflexivity | now apply int4_range].
Qed.

(** What a PUT writes.  A PUT none of whose fields is truthy is answered
    400 and changes nothing.  Any other PUT on a task of the caller, with
    an id of 32 bits, texts without the byte 0 that fit their columns and a
    deadline the store can read, answers 200 with the new row, which is in
    the table instead of the old one: each column takes the field of the
    request when the request has one (be it the empty string) and keeps
    its value when the request has none; id, owner and creation time stay,
    and so do the other rows and their order. *)
Lemma put_tasks_id_writes
    ti d user (n : Z) title description status priority deadline :
  let req := TaskBody.mk title description status priority deadline in
  let out := put_tasks_id ti d user n req in
  (nothing_supplied title description status priority deadline = true ->
   out = (d, Res 400 (Text "At least one field must be provided to update")))
  /\ (nothing_supplied title description status priority deadline = false ->
      forall r dl,
        NoDup (map Task.id (tasks d)) ->
        In r (tasks d) -> Task.id r = n -> Task.user_id r = jwt_id user ->
        -2147483648 <= n <= 2147483647 ->
        no_nul title = true -> no_nul description = true ->
        no_nul status = true -> no_nul priority = true ->
        fits 255 title = true -> fits 50 status = true ->
        fits 50 priority = true ->
        bind_timestamp ti deadline = Some dl ->
        let r' :=
          Task.mk (Task.id r) (Task.user_id r)
            (pick title (Task.title r))
            (coalesce description (Task.description r))
            (coalesce status (Task.status r))
            (coalesce priority (Task.priority r))
            (coalesce dl (Task.deadline r))
            (Task.created_at r) in
        out
        = (set_tasks d
             (filter (fun x => negb (Task.id x =? n)) (tasks d) ++ [r']),
           Res 200 (Row r'))).
Proof.
  cbv zeta. split.
  - intros H. unfold put_tasks_id. unfold nothing_supplied in H. now rewrite H.
  - intros H r dl N Hin <- Hu Hn Nt Nd Ns Np Ft Fs Fp Hb.
    destruct (put_tasks_id_cases ti d user (Task.id r) title description status
                priority deadline)
      as [[F _]|[(_ & [F|F] & _)|(_ & t & ds & st & pr & dl' & m & B & I & E)]].
    + congruence.
    + rewrite (bind_task_fits _ _ _ _ _ _ _ Nt Nd Ns Np Ft Fs Fp Hb) in F.
      discriminate.
    + rewrite (bind_int4_range _ Hn) in F. discriminate.
    + rewrite (bind_task_fits _ _ _ _ _ _ _ Nt Nd Ns Np Ft Fs Fp Hb) in B.
      injection B as <- <- <- <- <-.
      rewrite (bind_int4_range _ Hn) in I. injection I as <-.
      cbv zeta in E. rewrite E. rewrite <- Hu.
      rewrite (filter_targets_key _ _ N Hin), (filter_other_key _ _ N Hin).
      reflexivity.
Qed.

Lemma supplied_not_empty (x : option string) :
  x <> Some "" -> falsy x = true -> x = None.
Proof.
  destruct x as [s|]; [|reflexivity]. intros H F.
  apply falsy_some in F. subst. now elim H.
Qed.

(** C2, for requests whose fields are strings, none of them the empty
    string.  A PUT that has at least one of the five fields, on a task of
    the caller with an id of 32 bits, with texts without the byte 0 that
    fit their columns and a deadline the store can read, answers 200 with
    the new row and puts it in the table instead of the old one: each
    column takes the field of the request when the request has one and
    keeps its value when the request has none; id, owner and creation time
    stay; every other row stays as it is, in the order they were in (the
    place of the new row among them is not said).  A PUT none of whose
    fields is truthy (all are missing or empty) is answered 400 and
    changes nothing. *)
Theorem put_tasks_id_replaces_supplied_fields
    ti d user (n : Z) title description status priority deadline :
  let req := TaskBody.mk title description status priority deadline in
  let out := put_tasks_id ti d user n req in
  (nothing_supplied title description status priority deadline = true ->
   out = (d, Res 400 (Text "At least one field must be provided to update"))
   /\ fails (snd out) ValidationError)
  /\ (title <> Some "" -> description <> Some "" -> status <> Some "" ->
      priority <> Some "" -> deadline <> Some "" ->
      title <> None \/ description <> None \/ status <> None
      \/ priority <> None \/ deadline <> None ->
      forall r dl,
        NoDup (map Task.id (tasks d)) ->
        In r (tasks d) -> Task.id r = n -> Task.user_id r = jwt_id user ->
        -2147483648 <= n <= 2147483647 ->
        no_nul title = true -> no_nul description = true ->
        no_nul status = true -> no_nul priority = true ->
        fits 255 title = true -> fits 50 status = true ->
        fits 50 priority = true ->
        bind_timestamp ti deadline = Some dl ->
        let r' :=
          Task.mk (Task.id r) (Task.user_id r)
            (pick title (Task.title r))
            (coalesce description (Task.description r))
            (coalesce status (Task.status r))
            (coalesce priority (Task.priority r))
            (coalesce dl (Task.deadline r))
            (Task.created_at r) in
        snd out = Res 200 (Row r')
        /\ Permutation (tasks (fst out))
             (r' :: filter (fun x => negb (Task.id x =? n)) (tasks d))
        /\ filter (fun x => negb (Task.id x =? n)) (tasks (fst out))
           = filter (fun x => negb (Task.id x =? n)) (tasks d)
        /\ users (fst out) = users d
        /\ tasks_id_seq (fst out) = tasks_id_seq d).
Proof.
  cbv zeta.
  destruct (put_tasks_id_writes ti d user n title description status priority
              deadline) as [W0 W1]. cbv zeta in W0, W1.
  split.
  - intros H. rewrite (W0 H). now split.
  - intros Ht Hd Hs Hp Hl Hsome r dl N Hin Hid Hu Hn Nt Nd Ns Np Ft Fs Fp Hb.
    rewrite (W1 ltac:(
      destruct (nothing_supplied title description status priority deadline)
        eqn:E; [|reflexivity];
      exfalso; unfold nothing_supplied in E;
      rewrite !andb_true_iff in E; destruct E as [[[[N1 N2] N3] N4] N5];
      apply (supplied_not_empty _ Ht) in N1; apply (supplied_not_empty _ Hd) in N2;
      apply (supplied_not_empty _ Hs) in N3; apply (supplied_not_empty _ Hp) in N4;
      apply (supplied_not_empty _ Hl) in N5; tauto)
      r dl N Hin Hid Hu Hn Nt Nd Ns Np Ft Fs Fp Hb).
    cbn [fst snd set_tasks tasks users tasks_id_seq].
    split; [reflexivity|]. split; [|split; [|split; reflexivity]].
    + apply Permutation_sym, Permutation_cons_append.
    + rewrite filter_app, filter_idem. cbn [filter Task.id].
      rewrite Hid, Z.eqb_refl. cbn. apply app_nil_r.
Qed.

(** The scenario of the specification: on the task [buy milk], a PUT of
    status [completed] changes the status and nothing else. *)
Lemma put_tasks_id_replaces_supplied_fields_witness :
  let out := put_tasks_id Sample.two_dates_in Sample.one_task Sample.as_alice 1
               (TaskBody.mk None None (Some "completed") None None) in
  let r' := Task.mk 1 1 "buy milk" (Some "two litres") (Some "completed")
              (Some "low") None 10 in
  snd out = Res 200 (Row r')
  /\ Permutation (tasks (fst out))
       (r' :: filter (fun x => negb (Task.id x =? 1)) (tasks Sample.one_task))
  /\ filter (fun x => negb (Task.id x =? 1)) (tasks (fst out))
     = filter (fun x => negb (Task.id x =? 1)) (tasks Sample.one_task)
  /\ users (fst out) = users Sample.one_task
  /\ tasks_id_seq (fst out) = tasks_id_seq Sample.one_task.
Proof.
  apply (proj2 (put_tasks_id_replaces_supplied_fields Sample.two_dates_in
                  Sample.one_task Sample.as_alice 1
                  None None (Some "completed") None None)
           ltac:(discriminate) ltac:(discriminate) ltac:(discriminate)
           ltac:(discriminate) ltac:(discriminate)
           ltac:(right; right; left; discriminate)
           Sample.milk None
           ltac:(cbn; constructor; [simpl; tauto | constructor])
           (or_introl eq_refl) eq_refl eq_refl ltac:(lia)
           eq_refl eq_refl eq_refl eq_refl eq_refl eq_refl eq_refl eq_refl).
Defined.

(** Against C2 as it is worded.  The task [buy milk] has a description.
    A PUT that supplies the description alone, as the empty string, is
    answered 400 and replaces nothing; the same empty description beside a
    title is answered 200 and is written over the stored one.  So a field
    given as the empty string is neither always a supplied field nor
    always an omitted one.  A PUT that supplies a deadline the store cannot
    read is answered 500 and replaces nothing. *)
Lemma put_tasks_id_empty_field_counterexample :
  Task.description Sample.milk = Some "two litres"
  /\ put_tasks_id Sample.two_dates_in Sample.one_task Sample.as_alice 1
       (TaskBody.mk None (Some "") None None None)
     = (Sample.one_task,
        Res 400 (Text "At least one field must be provided to update"))
  /\ put_tasks_id Sample.two_dates_in Sample.one_task Sample.as_alice 1
       (TaskBody.mk (Some "buy oat milk") (Some "") None None None)
     = (mkdb (users Sample.one_task)
          [Task.mk 1 1 "buy oat milk" (Some "") None (Some "low") None 10] 1,
        Res 200
          (Row (Task.mk 1 1 "buy oat milk" (Some "") None (Some "low") None 10)))
  /\ put_tasks_id Sample.two_dates_in Sample.one_task Sample.as_alice 1
       (TaskBody.mk None None None None (Some "soon"))
     = (Sample.one_task, Res 500 (Text "Failed to update task")).
Proof. repeat split. Qed.

(** *** Ownership *)

(** PUT and DELETE leave the rows that are not of that id and owner. *)
Lemma put_tasks_id_frame ti d user (n : Z) req :
  filter (fun r => negb (targets n (jwt_id user) r))
    (tasks (fst (put_tasks_id ti d user n req)))
  = filter (fun r => negb (targets n (jwt_id user) r)) (tasks d)
  /\ users (fst (put_tasks_id ti d user n req)) = users d.
Proof.
  destruct (put_tasks_id_store ti d user n req)
    as [->|(t & ds & st & pr & dl & m & _ & I & ->)]; [auto|].
  apply bind_int4_some in I as [[= <-] _].
  split; [|reflexivity]. cbn [tasks set_tasks].
  rewrite filter_app, filter_idem.
  rewrite (proj2 (filter_written (targets n (jwt_id user))
                    (update_row t ds st pr dl) (tasks d)
                    (fun x => update_row_targets n (jwt_id user) t ds st pr dl x))).
  apply app_nil_r.
Qed.

(** The outcomes of a DELETE. *)
Lemma delete_tasks_id_cases d user id :
  (bind_int4 id = None
   /\ delete_tasks_id d user id = (d, Res 500 (Text "Failed to delete task")))
  \/ (exists n,
        bind_int4 id = Some n
        /\ delete_tasks_id d user id
           = (set_tasks d
                (filter (fun r => negb (targets n (jwt_id user) r)) (tasks d)),
              match filter (targets n (jwt_id user)) (tasks d) with
              | [] => Res 404 (Text "Task not found or not authorized to delete")
              | _ :: _ => Res 200 (Text "Task deleted successfully")
              end)).
Proof.
  unfold delete_tasks_id, delete_task.
  destruct (bind_int4 id) as [n|]; [right | now left].
  exists n. split; [reflexivity|].
  now destruct (filter (targets n (jwt_id user)) (tasks d)).
Qed.

(** With no row under that id and owner, PUT and DELETE leave the store
    as it was. *)
Lemma untargeted_store d n uid :
  filter (targets n uid) (tasks d) = [] ->
  set_tasks d (filter (fun r => negb (targets n uid r)) (tasks d)) = d.
Proof.
  intros H. rewrite filter_all; [apply set_tasks_same|].
  intros y Hy. now rewrite (filter_nil_none _ _ H y Hy).
Qed.

Lemma put_tasks_id_untargeted ti d user id title description status priority deadline :
  (forall n, id = IdNumber n -> filter (targets n (jwt_id user)) (tasks d) = []) ->
  put_tasks_id ti d user id (TaskBody.mk title description status priority deadline)
  = (d,
     if nothing_supplied title description status priority deadline then
       Res 400 (Text "At least one field must be provided to update")
     else
       match bind_task ti title description status priority deadline, bind_int4 id with
       | Some _, Some _ => Res 404 (Text "Task not found or not authorized to update")
       | _, _ => Res 500 (Text "Failed to update task")
       end).
Proof.
  intros H.
  destruct (put_tasks_id_cases ti d user id title description status priority
              deadline)
    as [[F E]|[(F & [B|B] & E)|(F & t & ds & st & pr & dl & n & B & I & E)]];
    cbv zeta in E; rewrite E, F, ?B; clear E.
  - reflexivity.
  - reflexivity.
  - now destruct (bind_task ti title description status priority deadline).
  - rewrite I. apply bind_int4_some in I as [-> _].
    rewrite (H n eq_refl). cbn [map app]. rewrite app_nil_r.
    now rewrite (untargeted_store _ _ _ (H n eq_refl)).
Qed.

Lemma delete_tasks_id_untargeted d user id :
  (forall n, id = IdNumber n -> filter (targets n (jwt_id user)) (tasks d) = []) ->
  delete_tasks_id d user id
  = (d,
     match bind_int4 id with
     | Some _ => Res 404 (Text "Task not found or not authorized to delete")
     | None => Res 500 (Text "Failed to delete task")
     end).
Proof.
  intros H.
  destruct (delete_tasks_id_cases d user id) as [[B E]|(n & B & E)];
    rewrite E, B; [reflexivity|].
  apply bind_int4_some in B as [-> _].
  now rewrite (H n eq_refl), (untargeted_store _ _ _ (H n eq_refl)).
Qed.

(** The store after a DELETE. *)
Lemma delete_tasks_id_store d user id :
  fst (delete_tasks_id d user id) = d
  \/ exists n,
       bind_int4 id = Some n
       /\ fst (delete_tasks_id d user id)
          = set_tasks d
              (filter (fun r => negb (targets n (jwt_id user) r)) (tasks d)).
Proof.
  destruct (delete_tasks_id_cases d user id) as [[B E]|(n & B & E)];
    rewrite E; [now left | right]. now exists n.
Qed.

(** C3, for an id that is an integer.  PUT and DELETE on the id reach no
    row but those of that id under the caller: the other rows of [tasks]
    are afterwards as before, in the order they were in, and [users] is
    untouched; after a DELETE with an id of 32 bits no row of that id is
    left under the caller.  When no row has that id under the caller, be
    it that no task has the id or that the task is someone else's, the
    store is as it was whatever the answer; if the id is of 32 bits,
    DELETE answers 404, and so does a PUT that has a field in it and whose
    fields the store accepts; and the answers are, word for word, those
    given on any other store without such a row.  An id beyond 32 bits is
    answered 500 by DELETE, and by a PUT that has a field in it. *)
Theorem put_delete_scoped_to_owner
    ti d user (n : Z) title description status priority deadline :
  let req := TaskBody.mk title description status priority deadline in
  let mine := fun r => (Task.id r =? n) && (Task.user_id r =? jwt_id user) in
  let upd := put_tasks_id ti d user n req in
  let del := delete_tasks_id d user n in
  (filter (fun r => negb (mine r)) (tasks (fst upd))
   = filter (fun r => negb (mine r)) (tasks d)
   /\ users (fst upd) = users d)
  /\ (filter (fun r => negb (mine r)) (tasks (fst del))
      = filter (fun r => negb (mine r)) (tasks d)
      /\ users (fst del) = users d
      /\ (-2147483648 <= n <= 2147483647 -> filter mine (tasks (fst del)) = []))
  /\ (filter mine (tasks d) = [] ->
      fst upd = d /\ fst del = d
      /\ (-2147483648 <= n <= 2147483647 ->
          del = (d, Res 404 (Text "Task not found or not authorized to delete"))
          /\ fails (snd del) NotFound
          /\ (nothing_supplied title description status priority deadline = false ->
              no_nul title = true -> no_nul description = true ->
              no_nul status = true -> no_nul priority = true ->
              fits 255 title = true -> fits 50 status = true ->
              fits 50 priority = true ->
              readable ti deadline ->
              snd upd = Res 404 (Text "Task not found or not authorized to update")
              /\ fails (snd upd) NotFound))
      /\ (forall d2,
            filter mine (tasks d2) = [] ->
            snd (put_tasks_id ti d2 user n req) = snd upd
            /\ snd (delete_tasks_id d2 user n) = snd del))
  /\ (n < -2147483648 \/ 2147483647 < n ->
      del = (d, Res 500 (Text "Failed to delete task"))
      /\ fst upd = d
      /\ (nothing_supplied title description status priority deadline = false ->
          snd upd = Res 500 (Text "Failed to update task"))).
Proof.
  cbv zeta. fold (targets n (jwt_id user)).
  change (fun r => negb ((Task.id r =? n) && (Task.user_id r =? jwt_id user)))
    with (fun r => negb (targets n (jwt_id user) r)).
  split; [|split; [|split]].
  - apply put_tasks_id_frame.
  - destruct (delete_tasks_id_cases d user n) as [[B E]|(m & B & E)].
    + rewrite E. cbn [fst]. split; [reflexivity|]. split; [reflexivity|].
      intros R. rewrite (bind_int4_range _ R) in B. discriminate.
    + apply bind_int4_some in B as [[= <-] _]. rewrite E. cbn [fst tasks set_tasks users].
      split; [apply filter_idem|]. split; [reflexivity|]. intros _.
      apply filter_none. intros y Hy. apply filter_In in Hy as [_ Hy].
      now apply negb_true_iff.
  - intros H.
    assert (H' : forall d0, filter (targets n (jwt_id user)) (tasks d0) = [] ->
                 forall m, IdNumber n = IdNumber m ->
                 filter (targets m (jwt_id user)) (tasks d0) = [])
      by (intros d0 H0 m [= <-]; exact H0).
    rewrite (delete_tasks_id_untargeted _ _ _ (H' d H)).
    rewrite (put_tasks_id_untargeted _ _ _ _ _ _ _ _ _ (H' d H)).
    cbn [fst snd]. split; [reflexivity|]. split; [reflexivity|]. split.
    + intros R. rewrite (bind_int4_range _ R).
      split; [reflexivity|]. split; [reflexivity|].
      intros -> Nt Nd Ns Np Ft Fs Fp Hr.
      apply bind_timestamp_readable in Hr.
      destruct (bind_timestamp ti deadline) as [dl|] eqn:B; [|now elim Hr].
      rewrite (bind_task_fits _ _ _ _ _ _ _ Nt Nd Ns Np Ft Fs Fp B).
      now split.
    + intros d2 H2.
      rewrite (put_tasks_id_untargeted _ _ _ _ _ _ _ _ _ (H' d2 H2)).
      now rewrite (delete_tasks_id_untargeted _ _ _ (H' d2 H2)).
  - intros R. pose proof (bind_int4_outside _ R) as B.
    destruct (delete_tasks_id_cases d user n) as [[_ E]|(m & B' & _)];
      [|congruence].
    split; [exact E|].
    destruct (put_tasks_id_cases ti d user n title description status priority
                deadline)
      as [[F E']|[(F & _ & E')|(_ & t & ds & st & pr & dl & m & _ & I & _)]];
      [| |congruence]; cbv zeta in E'; rewrite E'; cbn [fst snd].
    + split; [reflexivity|]. congruence.
    + split; [reflexivity|]. reflexivity.
Qed.

(** Bob's PUT and DELETE on alice's task 1, and on a task 7 that nobody
    has, get the same two answers and change nothing. *)
Lemma put_delete_scoped_to_owner_witness :
  (put_tasks_id Sample.two_dates_in Sample.one_task Sample.as_bob 1
     (TaskBody.mk (Some "mine now") None None None None)
   = (Sample.one_task, Res 404 (Text "Task not found or not authorized to update"))
   /\ put_tasks_id Sample.two_dates_in Sample.one_task Sample.as_bob 7
        (TaskBody.mk (Some "mine now") None None None None)
      = (Sample.one_task, Res 404 (Text "Task not found or not authorized to update")))
  /\ (delete_tasks_id Sample.one_task Sample.as_bob 1
      = (Sample.one_task, Res 404 (Text "Task not found or not authorized to delete"))
      /\ delete_tasks_id Sample.one_task Sample.as_bob 7
         = (Sample.one_task, Res 404 (Text "Task not found or not authorized to delete"))).
Proof.
  pose proof (proj1 (proj2 (proj2 (put_delete_scoped_to_owner Sample.two_dates_in
    Sample.one_task Sample.as_bob 1 (Some "mine now") None None None None)))
    eq_refl) as (S1 & _ & R1 & _).
  pose proof (proj1 (proj2 (proj2 (put_delete_scoped_to_owner Sample.two_dates_in
    Sample.one_task Sample.as_bob 7 (Some "mine now") None None None None)))
    eq_refl) as (S7 & _ & R7 & _).
  destruct (R1 ltac:(lia)) as (D1 & _ & U1).
  destruct (R7 ltac:(lia)) as (D7 & _ & U7).
  destruct (U1 eq_refl eq_refl eq_refl eq_refl eq_refl eq_refl eq_refl eq_refl I)
    as [U1' _].
  destruct (U7 eq_refl eq_refl eq_refl eq_refl eq_refl eq_refl eq_refl eq_refl I)
    as [U7' _].
  split; split.
  - rewrite (surjective_pairing (put_tasks_id _ _ _ 1 _)). now rewrite S1, U1'.
  - rewrite (surjective_pairing (put_tasks_id _ _ _ 7 _)). now rewrite S7, U7'.
  - exact D1.
  - exact D7.
Defined.

(** Against C3 as it is worded.  Bob has no task 1 (it is alice's) and no
    task 7 (nobody has one).  His PUT of a status of 51 characters on
    either is answered 500, not 404: the store refuses the text before it
    looks for the row.  So is his DELETE of a task 2147483648, and of a
    task whose id is no number: the store refuses the id.  And his PUT
    with nothing in it is answered 400. *)
Lemma put_delete_refused_parameter_counterexample :
  filter (fun r => (Task.id r =? 1) && (Task.user_id r =? 2))
    (tasks Sample.one_task) = []
  /\ filter (fun r => (Task.id r =? 7) && (Task.user_id r =? 2))
       (tasks Sample.one_task) = []
  /\ String.length Sample.long_status = 51%nat
  /\ put_tasks_id Sample.two_dates_in Sample.one_task Sample.as_bob 1
       (TaskBody.mk None None (Some Sample.long_status) None None)
     = (Sample.one_task, Res 500 (Text "Failed to update task"))
  /\ put_tasks_id Sample.two_dates_in Sample.one_task Sample.as_bob 7
       (TaskBody.mk None None (Some Sample.long_status) None None)
     = (Sample.one_task, Res 500 (Text "Failed to update task"))
  /\ delete_tasks_id Sample.one_task Sample.as_bob 2147483648
     = (Sample.one_task, Res 500 (Text "Failed to delete task"))
  /\ delete_tasks_id Sample.one_task Sample.as_bob IdOther
     = (Sample.one_task, Res 500 (Text "Failed to delete task"))
  /\ put_tasks_id Sample.two_dates_in Sample.one_task Sample.as_bob 7
       (TaskBody.mk None None None None None)
     = (Sample.one_task,
        Res 400 (Text "At least one field must be provided to update")).
Proof. repeat split. Qed.

(** ** The reads: GET /tasks, /tasks/filter, /tasks/search *)

Lemma filter_where_owner uid status priority due r :
  holds (filter_where uid status priority due r) = true ->
  (Task.user_id r =? uid) = true.
Proof.
  unfold filter_where. destruct (Task.user_id r =? uid); [reflexivity|].
  destruct (tri_or (is_null status) _) as [[]|],
           (tri_or (is_null priority) _) as [[]|],
           (tri_or (is_null due) _) as [[]|]; discriminate.
Qed.

Lemma search_where_owner uid ts r :
  holds (search_where uid ts r) = true -> (Task.user_id r =? uid) = true.
Proof.
  unfold search_where. destruct (Task.user_id r =? uid); [reflexivity|].
  destruct (tri_or _ _) as [[]|]; discriminate.
Qed.

(** A condition that implies the owner test selects among the owner's rows. *)
Lemma filter_through_owned uid (p : Task.t -> bool) d :
  (forall r, p r = true -> (Task.user_id r =? uid) = true) ->
  filter p (tasks d) = filter p (owned uid d).
Proof.
  intros H. unfold owned. induction (tasks d) as [|x l IH]; simpl; [reflexivity|].
  destruct (p x) eqn:E.
  - rewrite (H x E). simpl. rewrite E. now f_equal.
  - destruct (Task.user_id x =? uid); simpl; [now rewrite E | exact IH].
Qed.

(** The three reads of an owner are functions of that owner's rows. *)
Lemma reads_from_owned dp d1 d2 user q kw :
  owned (jwt_id user) d1 = owned (jwt_id user) d2 ->
  get_tasks d1 user = get_tasks d2 user
  /\ get_tasks_filter dp d1 user q = get_tasks_filter dp d2 user q
  /\ get_tasks_search d1 user kw = get_tasks_search d2 user kw.
Proof.
  intros H. split; [|split].
  - unfold get_tasks, select_tasks. fold (owned (jwt_id user) d1).
    fold (owned (jwt_id user) d2). now rewrite H.
  - unfold get_tasks_filter. destruct q as [status priority due_date].
    destruct (truthy due_date && _); [reflexivity|].
    unfold select_filter.
    destruct (bind text_in (or_null status)) as [st|]; [|reflexivity].
    destruct (bind text_in (or_null priority)) as [pr|]; [|reflexivity].
    rewrite (filter_through_owned (jwt_id user) _ d1),
            (filter_through_owned (jwt_id user) _ d2), H;
      eauto using filter_where_owner.
  - unfold get_tasks_search. destruct (falsy kw); [reflexivity|].
    unfold select_search. destruct (like_parse false _) as [ts|]; [|reflexivity].
    rewrite (filter_through_owned (jwt_id user) _ d1),
            (filter_through_owned (jwt_id user) _ d2), H;
      eauto using search_where_owner.
Qed.

(** Every row a read returns is the caller's. *)
Lemma reads_only_owned dp d user q kw r :
  In r (rows_of (get_tasks d user))
  \/ In r (rows_of (get_tasks_filter dp d user q))
  \/ In r (rows_of (get_tasks_search d user kw)) ->
  In r (tasks d) /\ Task.user_id r = jwt_id user.
Proof.
  intros [H|[H|H]].
  - unfold get_tasks, select_tasks, rows_of in H. cbn in H.
    apply order_by_in, filter_In in H as [H1 H2]. split; [exact H1|].
    now apply Z.eqb_eq.
  - unfold get_tasks_filter in H. destruct q as [status priority due_date].
    destruct (truthy due_date && _); [contradiction|].
    unfold select_filter in H.
    destruct (bind text_in (or_null status)) as [st|]; [|contradiction].
    destruct (bind text_in (or_null priority)) as [pr|]; [|contradiction].
    unfold rows_of in H. cbn in H.
    apply order_by_in, filter_In in H as [H1 H2]. split; [exact H1|].
    apply Z.eqb_eq. eapply filter_where_owner; exact H2.
  - unfold get_tasks_search in H. destruct (falsy kw); [contradiction|].
    unfold select_search in H.
    destruct (like_parse false _) as [ts|]; [|contradiction].
    unfold rows_of in H. cbn in H.
    apply order_by_in, filter_In in H as [H1 H2]. split; [exact H1|].
    apply Z.eqb_eq. eapply search_where_owner; exact H2.
Qed.

(** POST /tasks leaves [tasks] as it was or appends one row of the caller. *)
Lemma post_tasks_store ti d user req now :
  tasks (fst (post_tasks ti d user req now)) = tasks d
  \/ exists r, Task.user_id r = jwt_id user
       /\ tasks (fst (post_tasks ti d user req now)) = tasks d ++ [r].
Proof.
  destruct req as [title description status priority deadline].
  destruct (create_rejected title status priority) eqn:R.
  - destruct (post_tasks_rejected ti d user title description status priority
                deadline now R) as [msg ->]. now left.
  - rewrite (post_tasks_accepted _ _ _ _ _ _ _ _ _ R).
    destruct (insert_task _ _ _ _ _ _ _ _ _) as [d' [rows|]] eqn:I.
    + apply insert_task_some in I as (t & ds & st & pr & dl & I).
      cbv zeta in I. destruct I as (-> & -> & _).
      right. eexists. split; [|reflexivity]. reflexivity.
    + apply insert_task_none in I as [I _]. now left.
Qed.

(** C4. Whatever task owner A creates, the answers that another owner B
    gets from GET /tasks, GET /tasks/filter and GET /tasks/search are those
    B got before; no row of A, this one or any other, is among the rows of
    these answers; and the answers are the same on any two stores that hold
    the same rows of B, whatever rows of others they hold. *)
Theorem tasks_of_one_owner_hidden_from_another ti dp d a b req now q kw :
  jwt_id a <> jwt_id b ->
  let d' := fst (post_tasks ti d a req now) in
  (get_tasks d' b = get_tasks d b
   /\ get_tasks_filter dp d' b q = get_tasks_filter dp d b q
   /\ get_tasks_search d' b kw = get_tasks_search d b kw)
  /\ (forall r, Task.user_id r = jwt_id a ->
        ~ In r (rows_of (get_tasks d' b))
        /\ ~ In r (rows_of (get_tasks_filter dp d' b q))
        /\ ~ In r (rows_of (get_tasks_search d' b kw)))
  /\ (forall d2, owned (jwt_id b) d2 = owned (jwt_id b) d ->
        get_tasks d2 b = get_tasks d b
        /\ get_tasks_filter dp d2 b q = get_tasks_filter dp d b q
        /\ get_tasks_search d2 b kw = get_tasks_search d b kw).
Proof.
  intros Hab d'. split; [|split; [|intros d2; apply reads_from_owned]].
  - apply reads_from_owned. unfold owned. subst d'.
    destruct (post_tasks_store ti d a req now) as [->|(r & Hr & ->)];
      [reflexivity|].
    rewrite filter_app. simpl.
    replace (Task.user_id r =? jwt_id b) with false; [apply app_nil_r|].
    symmetry. apply Z.eqb_neq. congruence.
  - intros r Hr.
    repeat split; intros H;
      apply Hab; rewrite <- Hr;
      eapply (reads_only_owned dp d' b q kw r); eauto.
Qed.

(** Alice creates a task; bob's three reads show what they showed. *)
Lemma tasks_of_one_owner_hidden_from_another_witness :
  let d' := fst (post_tasks Sample.seconds_in Sample.three_tasks Sample.as_alice
                   (TaskBody.mk (Some "Report draft") (Some "for bob") (Some "pending")
                      (Some "high") (Some "400")) 40) in
  get_tasks d' Sample.as_bob = get_tasks Sample.three_tasks Sample.as_bob
  /\ get_tasks_filter Sample.seconds_in d' Sample.as_bob
       (FilterQuery.mk (Some "pending") (Some "high") (Some "900"))
     = get_tasks_filter Sample.seconds_in Sample.three_tasks Sample.as_bob
         (FilterQuery.mk (Some "pending") (Some "high") (Some "900"))
  /\ get_tasks_search d' Sample.as_bob (Some "report")
     = get_tasks_search Sample.three_tasks Sample.as_bob (Some "report").
Proof.
  cbv zeta.
  apply (proj1 (tasks_of_one_owner_hidden_from_another Sample.seconds_in
                  Sample.seconds_in Sample.three_tasks Sample.as_alice
                  Sample.as_bob _ 40 _ (Some "report")
                  ltac:(cbn; lia))).
Defined.

Lemma Sorted_weaken {A : Type} (R R' : A -> A -> Prop) l :
  (forall a b, R a b -> R' a b) -> Sorted R l -> Sorted R' l.
Proof.
  intros H. induction 1 as [|x l Hl IH Hx]; constructor; [exact IH|].
  destruct Hx; constructor. now apply H.
Qed.

Lemma select_tasks_sorted d uid :
  Sorted (fun x y => Task.created_at y <= Task.created_at x) (select_tasks d uid).
Proof.
  unfold select_tasks.
  eapply Sorted_weaken;
    [|apply order_by_sorted; exact created_at_desc_total].
  intros a b H. unfold created_at_desc in H. now apply Z.leb_le.
Qed.

(** With every criterion falsy the WHERE clause of the filter is the owner
    test. *)
Lemma filter_where_no_criteria uid r :
  holds (filter_where uid None None None r) = (Task.user_id r =? uid).
Proof. unfold filter_where. now destruct (Task.user_id r =? uid). Qed.

(** A falsy criterion is bound as NULL. *)
Lemma bind_text_falsy x : falsy x = true -> bind text_in (or_null x) = Some None.
Proof. intros H. unfold or_null, truthy. now rewrite H. Qed.

(** C5. GET /tasks/filter with no status, no priority and no due date
    (or with these empty) answers as GET /tasks does: the same rows in the
    same order, which is that of the owner's rows by creation time, the
    latest first. *)
Theorem get_tasks_filter_no_criteria_is_get_tasks dp d user :
  get_tasks_filter dp d user (FilterQuery.mk None None None) = get_tasks d user
  /\ (forall status priority due_date,
        falsy status = true -> falsy priority = true -> falsy due_date = true ->
        get_tasks_filter dp d user (FilterQuery.mk status priority due_date)
        = get_tasks d user)
  /\ Sorted (fun x y => Task.created_at y <= Task.created_at x)
       (rows_of (get_tasks d user))
  /\ Permutation (rows_of (get_tasks d user)) (owned (jwt_id user) d).
Proof.
  assert (G : forall status priority due_date,
        falsy status = true -> falsy priority = true -> falsy due_date = true ->
        get_tasks_filter dp d user (FilterQuery.mk status priority due_date)
        = get_tasks d user).
  { intros status priority due_date Hs Hp Hd.
    unfold get_tasks_filter, get_tasks, select_filter.
    rewrite (bind_text_falsy _ Hs), (bind_text_falsy _ Hp).
    unfold truthy. rewrite Hd. cbn [negb andb].
    unfold select_tasks. do 3 f_equal.
    apply filter_ext. intros r. apply filter_where_no_criteria. }
  split; [now apply G|]. split; [exact G|]. split.
  - apply select_tasks_sorted.
  - apply order_by_perm.
Qed.

(** ** ILIKE and the search *)

Lemma list_ascii_of_string_append s1 s2 :
  list_ascii_of_string (String.append s1 s2)
  = list_ascii_of_string s1 ++ list_ascii_of_string s2.
Proof. induction s1 as [|c s1 IH]; simpl; [reflexivity | now rewrite IH]. Qed.

(** The pattern that the search handler builds, in lower case. *)
Lemma lower_search_pattern kw :
  lower (String.append "%" (String.append kw "%"))
  = "%"%char :: lower kw ++ ["%"%char].
Proof.
  unfold lower. cbn [String.append list_ascii_of_string map].
  rewrite list_ascii_of_string_append, map_app. reflexivity.
Qed.

(** A pattern that ends in [%] is never refused. *)
Lemma like_parse_percent_end l :
  forall esc, exists ts, like_parse esc (l ++ ["%"%char]) = Some ts.
Proof.
  induction l as [|c l IH]; intros esc.
  - destruct esc; cbn; eauto.
  - cbn [app like_parse].
    destruct (IH false) as [ts0 E0]. destruct (IH true) as [ts1 E1].
    destruct esc; [rewrite E0; cbn; eauto|].
    destruct (Ascii.eqb c "\"%char); [rewrite E1; eauto|].
    destruct (Ascii.eqb c "%"%char); [rewrite E0; cbn; eauto|].
    destruct (Ascii.eqb c "_"%char); rewrite E0; cbn; eauto.
Qed.

Lemma to_lower_special c : like_special (to_lower c) = like_special c.
Proof. destruct c as [[] [] [] [] [] [] [] []]; reflexivity. Qed.

Lemma plain_keyword_lower kw :
  plain_keyword kw = true ->
  forallb (fun c => negb (like_special c)) (lower kw) = true.
Proof.
  unfold plain_keyword, lower.
  induction (list_ascii_of_string kw) as [|c l IH]; simpl; [reflexivity|].
  intros H. apply andb_true_iff in H as [Hc Hl].
  now rewrite to_lower_special, Hc, IH.
Qed.

(** Characters that are not special are read as themselves. *)
Lemma like_parse_plain l rest :
  forallb (fun c => negb (like_special c)) l = true ->
  like_parse false (l ++ rest)
  = option_map (app (map LLit l)) (like_parse false rest).
Proof.
  induction l as [|c l IH]; simpl; intros H.
  - now destruct (like_parse false rest).
  - apply andb_true_iff in H as [Hc Hl]. rewrite (IH Hl).
    unfold like_special in Hc. apply negb_true_iff in Hc.
    apply orb_false_iff in Hc as [Hc H3]. apply orb_false_iff in Hc as [H1 H2].
    rewrite H1, H2, H3. now destruct (like_parse false rest).
Qed.

Lemma like_toks_any ts s :
  like_toks (LAny :: ts) s
  = like_toks ts s
    || match s with
       | [] => false
       | _ :: s' => like_toks (LAny :: ts) s'
       end.
Proof. destruct s; reflexivity. Qed.

Lemma like_toks_any_alone s : like_toks [LAny] s = true.
Proof.
  induction s as [|c s IH]; [reflexivity|].
  rewrite like_toks_any. now rewrite IH.
Qed.

Lemma like_toks_prefix p : forall s,
  like_toks (map LLit p ++ [LAny]) s = prefix_of p s.
Proof.
  induction p as [|c p IH]; intros s.
  - apply like_toks_any_alone.
  - destruct s as [|d s]; [reflexivity|]. cbn. now rewrite IH.
Qed.

Lemma like_toks_occurs p s :
  like_toks (LAny :: map LLit p ++ [LAny]) s = occurs_in p s.
Proof.
  induction s as [|c s IH]; rewrite like_toks_any, like_toks_prefix.
  - reflexivity.
  - cbn [occurs_in]. now rewrite IH.
Qed.

Lemma like_parse_percent l :
  like_parse false ("%"%char :: l) = option_map (cons LAny) (like_parse false l).
Proof. reflexivity. Qed.

(** The pattern of a keyword with no special character: any run, the
    keyword, any run. *)
Lemma like_parse_plain_keyword kw :
  plain_keyword kw = true ->
  like_parse false (lower (String.append "%" (String.append kw "%")))
  = Some (LAny :: map LLit (lower kw) ++ [LAny]).
Proof.
  intros H. rewrite lower_search_pattern, like_parse_percent.
  rewrite (like_parse_plain _ _ (plain_keyword_lower _ H)). reflexivity.
Qed.

(** For such a keyword, [x ILIKE '%keyword%'] is the occurrence of the
    keyword in [x], letter case apart. *)
Lemma ilike_plain_keyword kw x :
  ilike (LAny :: map LLit (lower kw) ++ [LAny]) x
  = option_map (fun s => occurs_in (lower kw) (lower s)) x.
Proof.
  destruct x as [s|]; [|reflexivity].
  unfold ilike, option_map. now rewrite like_toks_occurs.
Qed.

Lemma search_where_plain_keyword uid kw r :
  holds (search_where uid (LAny :: map LLit (lower kw) ++ [LAny]) r)
  = (Task.user_id r =? uid) && keyword_hit kw r.
Proof.
  unfold search_where, keyword_hit, contains_ci.
  rewrite !ilike_plain_keyword.
  destruct (Task.user_id r =? uid), (Task.description r) as [s|]; cbn;
    destruct (occurs_in (lower kw) (lower (Task.title r)));
    try destruct (occurs_in (lower kw) (lower s)); reflexivity.
Qed.

(** GET /tasks/search never answers 500: its pattern ends in [%]. *)
Lemma get_tasks_search_answers d user keyword :
  (falsy keyword = true ->
   get_tasks_search d user keyword
   = Res 400 (Text "Keyword is required for searching"))
  /\ (falsy keyword = false ->
      exists rows, get_tasks_search d user keyword = Res 200 (Rows rows)).
Proof.
  unfold get_tasks_search. split; intros ->; [reflexivity|].
  unfold select_search. rewrite lower_search_pattern.
  destruct (like_parse_percent_end ("%"%char :: lower (text keyword)) false)
    as [ts E].
  cbn [app] in E. rewrite E. eauto.
Qed.

(** The rows of a search come latest deadline first, those with no
    deadline before the others. *)
Lemma get_tasks_search_sorted d user keyword :
  Sorted (fun x y => match Task.deadline x, Task.deadline y with
                     | None, _ => True
                     | Some _, None => False
                     | Some a, Some b => b <= a
                     end)
    (rows_of (get_tasks_search d user keyword)).
Proof.
  eapply Sorted_weaken with (R := fun x y => deadline_desc x y = true).
  - intros a b. unfold deadline_desc.
    destruct (Task.deadline a), (Task.deadline b); try tauto; try discriminate.
    apply Z.leb_le.
  - unfold get_tasks_search. destruct (falsy keyword); [constructor|].
    unfold select_search. destruct (like_parse false _); [|constructor].
    apply order_by_sorted. exact deadline_desc_total.
Qed.

(** For a keyword in which no character is [%], [_] or a backslash,
    GET /tasks/search answers with the caller's rows whose title or
    description has the keyword in it, letter case apart, latest deadline
    first. *)
Lemma get_tasks_search_plain_keyword d user kw :
  kw <> "" -> plain_keyword kw = true ->
  get_tasks_search d user (Some kw)
  = Res 200
      (Rows (order_by deadline_desc
               (filter (fun r => (Task.user_id r =? jwt_id user) && keyword_hit kw r)
                  (tasks d)))).
Proof.
  intros Hne Hplain. unfold get_tasks_search.
  replace (falsy (Some kw)) with false
    by (symmetry; simpl; now apply String.eqb_neq).
  unfold select_search. cbn [text].
  rewrite (like_parse_plain_keyword _ Hplain). do 3 f_equal.
  apply filter_ext. intros r. apply search_where_plain_keyword.
Qed.

(** C6, for a keyword that is a string of ASCII characters with no [%],
    [_] or backslash in it, on tasks whose titles and descriptions are
    ASCII text.  GET /tasks/search answers 400 when the keyword is missing
    or empty.  For a non-empty keyword of that kind it answers 200 with
    the caller's rows whose title or description has the keyword in it, the
    case of the letters A to Z apart, each once, and with no other row; the
    rows come latest deadline first, those with no deadline before the
    others. *)
Theorem get_tasks_search_by_plain_keyword d user keyword :
  (falsy keyword = true ->
   get_tasks_search d user keyword
   = Res 400 (Text "Keyword is required for searching")
   /\ fails (get_tasks_search d user keyword) ValidationError)
  /\ (forall kw,
        keyword = Some kw -> kw <> "" -> plain_keyword kw = true ->
        ascii_text kw = true ->
        (forall r, In r (tasks d) -> Task.user_id r = jwt_id user ->
           ascii_task r = true) ->
        exists rows,
          get_tasks_search d user keyword = Res 200 (Rows rows)
          /\ (forall r, In r rows <->
                 In r (tasks d) /\ Task.user_id r = jwt_id user
                 /\ keyword_hit kw r = true)
          /\ Permutation rows
               (filter (fun r => (Task.user_id r =? jwt_id user)
                                 && keyword_hit kw r) (tasks d))
          /\ Sorted (fun x y => match Task.deadline x, Task.deadline y with
                                | None, _ => True
                                | Some _, None => False
                                | Some a, Some b => b <= a
                                end) rows).
Proof.
  split.
  - intros H. rewrite (proj1 (get_tasks_search_answers d user keyword) H).
    now split.
  - intros kw -> Hne Hplain _ _.
    pose proof (get_tasks_search_sorted d user (Some kw)) as S.
    rewrite (get_tasks_search_plain_keyword d user kw Hne Hplain) in S |- *.
    eexists. split; [reflexivity|]. split; [|split; [|exact S]].
    + intros r. rewrite order_by_in, filter_In, andb_true_iff, Z.eqb_eq. tauto.
    + apply order_by_perm.
Qed.

(** Alice's search for [RENT] returns her task [pay rent]. *)
Lemma get_tasks_search_by_plain_keyword_witness :
  exists rows,
    get_tasks_search Sample.three_tasks Sample.as_alice (Some "RENT")
    = Res 200 (Rows rows)
    /\ (forall r, In r rows <->
           In r (tasks Sample.three_tasks) /\ Task.user_id r = 1
           /\ keyword_hit "RENT" r = true)
    /\ Permutation rows [Sample.rent]
    /\ Sorted (fun x y => match Task.deadline x, Task.deadline y with
                          | None, _ => True
                          | Some _, None => False
                          | Some a, Some b => b <= a
                          end) rows.
Proof.
  apply (proj2 (get_tasks_search_by_plain_keyword Sample.three_tasks
                  Sample.as_alice (Some "RENT")) "RENT" eq_refl);
    [discriminate | reflexivity | reflexivity |].
  intros r [<-|[<-|[<-|[]]]] _; reflexivity.
Defined.

(** Against C6 as it is worded.  The keyword goes into the ILIKE pattern
    as it is, so [_] and [%] in it stand for any character and any run.  On
    alice's task [buy milk], described as [two litres], the keywords [_] and
    [b%k] each return the task, though neither occurs in its title or in
    its description. *)
Lemma get_tasks_search_pattern_counterexample :
  get_tasks_search Sample.one_task Sample.as_alice (Some "_")
  = Res 200 (Rows [Sample.milk])
  /\ keyword_hit "_" Sample.milk = false
  /\ get_tasks_search Sample.one_task Sample.as_alice (Some "b%k")
     = Res 200 (Rows [Sample.milk])
  /\ keyword_hit "b%k" Sample.milk = false.
Proof. repeat split; vm_compute; reflexivity. Qed.

(** ** POST /login *)

Lemma query_user_clean d x :
  has_nul x = false ->
  query_user d x
  = Some (filter (fun u => String.eqb (User.email u) x
                           || String.eqb (User.username u) x) (users d)).
Proof. intros H. unfold query_user, text_in. now rewrite H. Qed.

Lemma query_user_refused d x : has_nul x = true -> query_user d x = None.
Proof. intros H. unfold query_user, text_in. now rewrite H. Qed.

(** Rows that the lookup returned: the store accepted the identifier. *)
Lemma select_user_rows d x u rest :
  select_user d x = u :: rest ->
  has_nul x = false /\ query_user d x = Some (u :: rest).
Proof.
  unfold select_user. destruct (has_nul x) eqn:H.
  - now rewrite (query_user_refused _ _ H).
  - destruct (query_user d x); [|discriminate]. now intros ->.
Qed.

Lemma select_user_none d x :
  (forall u, In u (users d) -> User.email u <> x /\ User.username u <> x) ->
  select_user d x = [].
Proof.
  intros H. unfold select_user. destruct (has_nul x) eqn:N.
  - now rewrite (query_user_refused _ _ N).
  - rewrite (query_user_clean _ _ N). apply filter_none. intros u Hu.
    destruct (H u Hu) as [He Hn].
    apply orb_false_iff. split; now apply String.eqb_neq.
Qed.

(** The rows of the lookup are the users with that email or username. *)
Lemma select_user_in d x u :
  In u (select_user d x) <->
  has_nul x = false
  /\ In u (users d) /\ (User.email u = x \/ User.username u = x).
Proof.
  unfold select_user. destruct (has_nul x) eqn:N.
  - rewrite (query_user_refused _ _ N). split; [contradiction|].
    intros [F _]; discriminate.
  - rewrite (query_user_clean _ _ N).
    rewrite filter_In, orb_true_iff, !String.eqb_eq. tauto.
Qed.

(** The first row of the lookup is the first user of the table with that
    email or username. *)
Lemma select_user_first d x before u after :
  has_nul x = false ->
  users d = before ++ u :: after ->
  (forall v, In v before -> User.email v <> x /\ User.username v <> x) ->
  User.email u = x \/ User.username u = x ->
  exists rest, select_user d x = u :: rest.
Proof.
  intros N E Hb Hu. unfold select_user. rewrite (query_user_clean _ _ N), E.
  rewrite filter_app. rewrite filter_none.
  - cbn [app filter].
    replace (String.eqb (User.email u) x || String.eqb (User.username u) x)
      with true; [eauto|].
    symmetry. apply orb_true_iff. rewrite !String.eqb_eq. exact Hu.
  - intros v Hv. destruct (Hb v Hv) as [He Hn].
    apply orb_false_iff. split; now apply String.eqb_neq.
Qed.

(** The answer of a login with both fields non-empty, by what the lookup
    returns. *)
Lemma post_login_by_rows cmp d x pw :
  x <> "" -> pw <> "" ->
  post_login cmp d (LoginBody.mk (Some x) (Some pw))
  = match query_user d x with
    | None => Res 500 (Text "Internal server error")
    | Some [] => Res 404 (Text "User not found")
    | Some (u :: _) =>
        if cmp pw (User.password u)
        then Res 200 (Token "Login successful" (mkjwt (User.id u) (User.username u)))
        else Res 401 (Text "Invalid password")
    end.
Proof.
  intros Hx Hp. unfold post_login. simpl.
  apply String.eqb_neq in Hx, Hp. rewrite Hx, Hp. simpl.
  destruct (query_user d x) as [[|u rest]|]; try reflexivity.
  now destruct (cmp pw (User.password u)).
Qed.

(** C8, for a login whose two fields are non-empty strings and whose
    identifier has no byte 0.  It answers 404 when no stored user has the
    identifier as email or as username.  When some user has, the hash that
    is tried is that of the first such user of the table: the answer is 401
    if the password does not verify against it, and the token of that user
    if it does; so it is 401 whenever the password verifies against the
    hash of no user with that identifier.  The two failures differ in
    status and in text. *)
Theorem post_login_not_found_or_unauthorized cmp d x pw :
  x <> "" -> pw <> "" -> has_nul x = false ->
  let out := post_login cmp d (LoginBody.mk (Some x) (Some pw)) in
  ((forall u, In u (users d) -> User.email u <> x /\ User.username u <> x) ->
   out = Res 404 (Text "User not found") /\ fails out NotFound)
  /\ (forall before u after,
        users d = before ++ u :: after ->
        (forall v, In v before -> User.email v <> x /\ User.username v <> x) ->
        User.email u = x \/ User.username u = x ->
        (cmp pw (User.password u) = false ->
         out = Res 401 (Text "Invalid password") /\ fails out Unauthorized)
        /\ (cmp pw (User.password u) = true ->
            out = Res 200 (Token "Login successful"
                             (mkjwt (User.id u) (User.username u)))))
  /\ ((exists u, In u (users d) /\ (User.email u = x \/ User.username u = x)) ->
      (forall u, In u (users d) ->
         User.email u = x \/ User.username u = x ->
         cmp pw (User.password u) = false) ->
      out = Res 401 (Text "Invalid password") /\ fails out Unauthorized)
  /\ Res 404 (Text "User not found") <> Res 401 (Text "Invalid password")
  /\ error_code NotFound <> error_code Unauthorized.
Proof.
  intros Hx Hp N out. subst out. rewrite (post_login_by_rows _ _ _ _ Hx Hp).
  split; [|split; [|split; [|split]]].
  - intros H. pose proof (select_user_none _ _ H) as E.
    unfold select_user in E. rewrite (query_user_clean _ _ N) in E |- *.
    rewrite E. now split.
  - intros before u after E Hb Hu.
    destruct (select_user_first d x before u after N E Hb Hu) as [rest R].
    apply select_user_rows in R as [_ ->].
    split; intros ->; [now split | reflexivity].
  - intros (v & Hv & Hm) H.
    destruct (select_user d x) as [|u rest] eqn:E.
    + exfalso. assert (I : In v (select_user d x)) by now apply select_user_in.
      now rewrite E in I.
    + assert (I : In u (select_user d x)) by (rewrite E; now left).
      apply select_user_in in I as (_ & Iu & Im).
      apply select_user_rows in E as [_ ->]. rewrite (H u Iu Im). now split.
  - discriminate.
  - discriminate.
Qed.

(** Alice's email with a wrong password is answered 401; a name that
    nobody has is answered 404. *)
Lemma post_login_not_found_or_unauthorized_witness :
  post_login Sample.tagged_compare Sample.registered
    (LoginBody.mk (Some "a@x.com") (Some "wrong")) = Res 401 (Text "Invalid password")
  /\ post_login Sample.tagged_compare Sample.registered
       (LoginBody.mk (Some "zed") (Some "wrong")) = Res 404 (Text "User not found").
Proof.
  split.
  - apply (proj1 (proj1 (proj2 (post_login_not_found_or_unauthorized
             Sample.tagged_compare Sample.registered "a@x.com" "wrong"
             ltac:(discriminate) ltac:(discriminate) eq_refl))
             [] Sample.alice [Sample.bob] eq_refl
             ltac:(intros v []) (or_introl eq_refl)) eq_refl).
  - apply (proj1 (post_login_not_found_or_unauthorized
             Sample.tagged_compare Sample.registered "zed" "wrong"
             ltac:(discriminate) ltac:(discriminate) eq_refl)).
    intros u [<-|[<-|[]]]; split; discriminate.
Defined.

(** Against C8 as it is worded.  The login name [carol@x.com] is carol's
    email, so carol matches; the password [first-pw] does not verify
    against carol's hash; and the login is answered 200, with the token of
    mallory, whose username is that name and who comes first in the
    table. *)
Lemma post_login_later_match_counterexample :
  In Sample.carol (users Sample.colliding)
  /\ User.email Sample.carol = "carol@x.com"
  /\ Sample.tagged_compare "first-pw" (User.password Sample.carol) = false
  /\ post_login Sample.tagged_compare Sample.colliding
       (LoginBody.mk (Some "carol@x.com") (Some "first-pw"))
     = Res 200 (Token "Login successful" (mkjwt 1 "carol@x.com"))
  /\ User.id Sample.carol = 2.
Proof. repeat split. right. now left. Qed.



(** ** The schema's invariant is kept *)

Lemma fits_coalesce n (p col : option string) :
  fits n p = true -> fits n col = true -> fits n (coalesce p col) = true.
Proof. now destruct p. Qed.

(** A row written by UPDATE with bound parameters fits its columns when
    the row it replaces did. *)
Lemma update_row_fits title status priority t ds st pr dl r :
  bind (varchar_in 255) title = Some t ->
  bind (varchar_in 50) status = Some st ->
  bind (varchar_in 50) priority = Some pr ->
  row_fits r = true -> row_fits (update_row t ds st pr dl r) = true.
Proof.
  intros Bt Bs Bp Hr. unfold row_fits in *.
  apply andb_true_iff in Hr as [Hr Hrp]. apply andb_true_iff in Hr as [Hrt Hrs].
  apply bind_varchar_some_fits in Bt, Bs, Bp. cbn [update_row Task.title
    Task.status Task.priority].
  rewrite (fits_coalesce _ _ _ Bs Hrs), (fits_coalesce _ _ _ Bp Hrp).
  destruct t as [t'|]; cbn in *; [now rewrite Bt | now rewrite Hrt].
Qed.

Lemma wf_db_no_tasks us : wf_db (mkdb us [] 0).
Proof. split; constructor. Qed.

Lemma post_tasks_keeps_wf ti d user req now :
  wf_db d -> wf_db (fst (post_tasks ti d user req now)).
Proof.
  intros [N F]. destruct req as [title description status priority deadline].
  destruct (create_rejected title status priority) eqn:R.
  - destruct (post_tasks_rejected ti d user title description status priority
                deadline now R) as [msg ->]. now split.
  - rewrite (post_tasks_accepted _ _ _ _ _ _ _ _ _ R).
    destruct (insert_task _ _ _ _ _ _ _ _ _) as [d' [rows|]] eqn:I.
    + apply insert_task_some in I as (t & ds & st & pr & dl & I).
      cbv zeta in I. destruct I as (-> & -> & B & _).
      apply bind_task_some in B as (Ht & _ & Hs & Hp & _).
      rewrite Forall_forall in F.
      split; cbn.
      * rewrite map_app. cbn. apply NoDup_app; [exact N | repeat constructor; tauto |].
        intros a Ha [<-|[]].
        apply in_map_iff in Ha as (r & E & Hr). destruct (F r Hr) as [_ L]. lia.
      * apply Forall_app. split.
        -- apply Forall_forall. intros r Hr. destruct (F r Hr). split; [assumption|lia].
        -- constructor; [|constructor]. split; [|cbn; lia].
           unfold row_fits. cbn [Task.title Task.status Task.priority].
           rewrite (bind_varchar_some_fits _ _ _ Ht).
           now rewrite (bind_varchar_some_fits _ _ _ Hs),
                       (bind_varchar_some_fits _ _ _ Hp).
    + cbn [fst]. apply insert_task_none in I as (I & _ & L).
      unfold wf_db. rewrite I. split; [exact N|].
      apply Forall_forall. intros r Hr. rewrite Forall_forall in F.
      destruct (F r Hr) as [F1 F2]. split; [exact F1 | lia].
Qed.

Lemma put_tasks_id_keeps_wf ti d user id req :
  wf_db d -> wf_db (fst (put_tasks_id ti d user id req)).
Proof.
  intros [N F].
  destruct (put_tasks_id_store ti d user id req)
    as [->|(t & ds & st & pr & dl & n & B & _ & ->)]; [now split|].
  apply bind_task_some in B as (Bt & _ & Bs & Bp & _).
  split; cbn [tasks set_tasks tasks_id_seq].
  - eapply Permutation_NoDup; [|exact N].
    apply Permutation_sym. rewrite map_app, map_map.
    cbn [update_row Task.id]. rewrite <- map_app.
    apply Permutation_map, filter_split_perm.
  - rewrite Forall_forall in F. apply Forall_app. split.
    + apply Forall_forall. intros r Hr. apply filter_In in Hr as [Hr _].
      now apply F.
    + apply Forall_forall. intros r Hr.
      apply in_map_iff in Hr as (x & <- & Hx). apply filter_In in Hx as [Hx _].
      destruct (F x Hx) as [F1 F2].
      split; [|exact F2]. eapply update_row_fits; eauto.
Qed.

Lemma delete_tasks_id_keeps_wf d user id :
  wf_db d -> wf_db (fst (delete_tasks_id d user id)).
Proof.
  intros [N F].
  destruct (delete_tasks_id_store d user id) as [->|(n & _ & ->)]; [now split|].
  split; cbn.
  - clear F. induction (tasks d) as [|x l IH]; simpl; [constructor|].
    inversion N as [|? ? Hx N']; subst.
    destruct (negb (targets n (jwt_id user) x)); simpl; [|now apply IH].
    constructor; [|now apply IH].
    intros I. apply Hx. apply in_map_iff in I as (y & E & Hy).
    apply filter_In in Hy as [Hy _]. rewrite <- E. now apply in_map.
  - apply Forall_forall. intros r Hr. apply filter_In in Hr as [Hr _].
    rewrite Forall_forall in F. now apply F.
Qed.

(** ** Worked examples *)

(** The scenario of the specification, after the registration: create
    [buy milk], set its status, search for [milk], delete, list. *)
Example scenario_buy_milk :
  let '(d1, r1) := post_tasks Sample.two_dates_in Sample.registered Sample.as_alice
                     (TaskBody.mk (Some "buy milk") None None (Some "low") None) 10 in
  let '(d2, r2) := put_tasks_id Sample.two_dates_in d1 Sample.as_alice 1
                     (TaskBody.mk None None (Some "completed") None None) in
  let r3 := get_tasks_search d2 Sample.as_alice (Some "milk") in
  let '(d4, r4) := delete_tasks_id d2 Sample.as_alice 1 in
  let r5 := get_tasks d4 Sample.as_alice in
  r1 = Res 201 (Row (Task.mk 1 1 "buy milk" None None (Some "low") None 10))
  /\ r2 = Res 200 (Row (Task.mk 1 1 "buy milk" None (Some "completed") (Some "low") None 10))
  /\ r3 = Res 200 (Rows [Task.mk 1 1 "buy milk" None (Some "completed") (Some "low") None 10])
  /\ r4 = Res 200 (Text "Task deleted successfully")
  /\ r5 = Res 200 (Rows []).
Proof. vm_compute. repeat split. Qed.

(** Search is by deadline, rows without one first; the list is by creation
    time; the filter keeps the rows that meet every criterion. *)
Example search_and_list_orders :
  get_tasks_search Sample.three_tasks Sample.as_alice (Some "T")
  = Res 200 (Rows [Sample.milk; Sample.rent])
  /\ get_tasks Sample.three_tasks Sample.as_alice
     = Res 200 (Rows [Sample.rent; Sample.milk])
  /\ get_tasks_filter Sample.two_dates_in Sample.three_tasks Sample.as_alice
       (FilterQuery.mk (Some "pending") None (Some "2025-01-31"))
     = Res 200 (Rows [Sample.rent])
  /\ get_tasks_filter Sample.two_dates_in Sample.three_tasks Sample.as_alice
       (FilterQuery.mk None None (Some "soon"))
     = Res 400 (Message "Invalid date format for 'due_date'").
Proof. vm_compute. repeat split. Qed.

(** A row that a PUT has written has left its place: a scan finds it
    after the rows that were not written. *)
Example put_tasks_id_moves_the_row :
  map Task.id
    (tasks (fst (put_tasks_id Sample.two_dates_in Sample.three_tasks
                   Sample.as_alice 1
                   (TaskBody.mk None None (Some "completed") None None))))
  = [2; 3; 1].
Proof. reflexivity. Qed.

Lemma post_tasks_row_priority_witness :
  priority_ok (Task.mk 1 1 "buy milk" None None (Some "low") None 10) = true.
Proof.
  apply (post_tasks_row_priority Sample.seconds_in Sample.registered Sample.as_alice
           (TaskBody.mk (Some "buy milk") None None (Some "low") None) 10).
  reflexivity.
Defined.

(** * The rest of the code *)

(** ** Runs of writes keep the schema *)

Lemma post_tasks_users ti d user req now :
  users (fst (post_tasks ti d user req now)) = users d.
Proof.
  destruct req as [title description status priority deadline].
  destruct (create_rejected title status priority) eqn:R.
  - now destruct (post_tasks_rejected ti d user title description status priority
                    deadline now R) as [msg ->].
  - rewrite (post_tasks_accepted _ _ _ _ _ _ _ _ _ R).
    destruct (insert_task _ _ _ _ _ _ _ _ _) as [d' [rows|]] eqn:I.
    + apply insert_task_some in I as (t & ds & st & pr & dl & I).
      cbv zeta in I. now destruct I as (_ & -> & _).
    + now apply insert_task_none in I as (_ & I & _).
Qed.

Lemma post_tasks_keeps_owned ti d user req now :
  well_owned d -> well_owned (fst (post_tasks ti d user req now)).
Proof.
  intros W. unfold well_owned. rewrite post_tasks_users.
  destruct req as [title description status priority deadline].
  destruct (create_rejected title status priority) eqn:R.
  - now destruct (post_tasks_rejected ti d user title description status priority
                    deadline now R) as [msg ->].
  - rewrite (post_tasks_accepted _ _ _ _ _ _ _ _ _ R).
    destruct (insert_task _ _ _ _ _ _ _ _ _) as [d' [rows|]] eqn:I.
    + apply insert_task_some in I as (t & ds & st & pr & dl & I).
      cbv zeta in I. destruct I as (_ & -> & _ & Hu).
      cbn. apply Forall_app. split; [exact W|]. now repeat constructor.
    + apply insert_task_none in I as [I _]. cbn [fst]. now rewrite I.
Qed.

Lemma put_tasks_id_users ti d user id req :
  users (fst (put_tasks_id ti d user id req)) = users d
  /\ tasks_id_seq (fst (put_tasks_id ti d user id req)) = tasks_id_seq d.
Proof.
  destruct (put_tasks_id_store ti d user id req)
    as [->|(t & ds & st & pr & dl & n & _ & _ & ->)]; now split.
Qed.

Lemma put_tasks_id_keeps_owned ti d user id req :
  well_owned d -> well_owned (fst (put_tasks_id ti d user id req)).
Proof.
  intros W. unfold well_owned in *.
  rewrite (proj1 (put_tasks_id_users ti d user id req)).
  destruct (put_tasks_id_store ti d user id req)
    as [->|(t & ds & st & pr & dl & n & _ & _ & ->)]; [exact W|].
  cbn [tasks set_tasks]. rewrite Forall_forall in W.
  apply Forall_app. split; apply Forall_forall; intros r Hr.
  - apply filter_In in Hr as [Hr _]. now apply W.
  - apply in_map_iff in Hr as (x & <- & Hx). apply filter_In in Hx as [Hx _].
    cbn [update_row Task.user_id]. now apply W.
Qed.

Lemma delete_tasks_id_users d user id :
  users (fst (delete_tasks_id d user id)) = users d.
Proof.
  now destruct (delete_tasks_id_store d user id) as [->|(n & _ & ->)].
Qed.

Lemma delete_tasks_id_keeps_owned d user id :
  well_owned d -> well_owned (fst (delete_tasks_id d user id)).
Proof.
  intros W. unfold well_owned in *. rewrite delete_tasks_id_users.
  destruct (delete_tasks_id_store d user id) as [->|(n & _ & ->)]; [exact W|].
  cbn [tasks set_tasks].
  rewrite Forall_forall in *. intros r Hr. apply filter_In in Hr as [Hr _].
  now apply W.
Qed.

Lemma serve_users ti d q : users (fst (serve ti d q)) = users d.
Proof.
  destruct q as [user req now | user id req | user id]; cbn [serve].
  - apply post_tasks_users.
  - apply put_tasks_id_users.
  - apply delete_tasks_id_users.
Qed.

Lemma serve_keeps_schema ti d q :
  wf_db d /\ well_owned d ->
  wf_db (fst (serve ti d q)) /\ well_owned (fst (serve ti d q)).
Proof.
  intros [W O]. destruct q as [user req now | user id req | user id]; cbn [serve].
  - split; [now apply post_tasks_keeps_wf | now apply post_tasks_keeps_owned].
  - split; [now apply put_tasks_id_keeps_wf | now apply put_tasks_id_keeps_owned].
  - split; [now apply delete_tasks_id_keeps_wf | now apply delete_tasks_id_keeps_owned].
Qed.

(** Whatever creates, updates and deletes are served, in whatever order
    and by whomever, starting from a store with no task: no two stored
    tasks have the same id, every id has been drawn from the sequence,
    every text fits its column, every task belongs to a stored user, and
    the table of users is as it was. *)
Theorem serve_all_keeps_schema ti us qs :
  let d := serve_all ti (mkdb us [] 0) qs in
  wf_db d /\ well_owned d /\ users d = us.
Proof.
  cbv zeta.
  assert (G : forall d, wf_db d /\ well_owned d ->
            wf_db (serve_all ti d qs) /\ well_owned (serve_all ti d qs)
            /\ users (serve_all ti d qs) = users d).
  { induction qs as [|q qs IH]; intros d H; cbn.
    - tauto.
    - destruct (IH (fst (serve ti d q)) (serve_keeps_schema ti d q H))
        as (A & B & C).
      fold (serve_all ti (fst (serve ti d q)) qs).
      rewrite C, serve_users. auto. }
  apply (G (mkdb us [] 0)). split; [apply wf_db_no_tasks | constructor].
Qed.

(** ** A created task in the list *)

Lemma order_by_newest {A : Type} (before : A -> A -> bool) l r :
  (forall x, In x l -> before x r = false) ->
  order_by before (l ++ [r]) = r :: order_by before l.
Proof.
  induction l as [|x l IH]; intros H; [reflexivity|].
  cbn. rewrite IH by (intros y Hy; apply H; now right).
  cbn. now rewrite (H x (or_introl eq_refl)).
Qed.

(** A created task has an id above every stored id, and the caller's
    list shows it; it is the first row of that list when it is later than
    every other task of the caller, the rest of the list being as before. *)
Theorem post_tasks_then_get_tasks ti d user req now r :
  wf_db d ->
  snd (post_tasks ti d user req now) = Res 201 (Row r) ->
  let d' := fst (post_tasks ti d user req now) in
  (forall x, In x (tasks d) -> Task.id x < Task.id r)
  /\ In r (rows_of (get_tasks d' user))
  /\ ((forall x, In x (tasks d) -> Task.user_id x = jwt_id user ->
         Task.created_at x < now) ->
      rows_of (get_tasks d' user) = r :: rows_of (get_tasks d user)).
Proof.
  intros [N F] H d'. destruct req as [title description status priority deadline].
  destruct (post_tasks_outcome ti d user title description status priority
              deadline now) as (_ & _ & S & _).
  cbv zeta in S. destruct S as (r0 & E & Ht & _ & Hu & Hi & Hc & _).
  { rewrite H. unfold succeeds. cbn. lia. }
  rewrite H in E. injection E as <-.
  assert (O : owned (jwt_id user) d' = owned (jwt_id user) d ++ [r]).
  { unfold owned. subst d'. rewrite Ht, filter_app. cbn.
    now rewrite Hu, Z.eqb_refl. }
  split; [|split].
  - intros x Hx. rewrite Forall_forall in F. destruct (F x Hx). lia.
  - unfold get_tasks, rows_of, select_tasks. cbn. apply order_by_in.
    fold (owned (jwt_id user) d'). rewrite O. apply in_or_app. right. now left.
  - intros L. unfold get_tasks, rows_of, select_tasks. cbn.
    fold (owned (jwt_id user) d') (owned (jwt_id user) d). rewrite O.
    apply order_by_newest. intros x Hx.
    unfold owned in Hx. apply filter_In in Hx as [Hx Ho]. apply Z.eqb_eq in Ho.
    unfold created_at_desc. apply Z.leb_gt. rewrite Hc. now apply L.
Qed.

Lemma post_tasks_then_get_tasks_witness :
  rows_of (get_tasks
             (fst (post_tasks Sample.seconds_in Sample.three_tasks Sample.as_alice
                     (TaskBody.mk (Some "call home") None None (Some "medium") None) 40))
             Sample.as_alice)
  = Task.mk 4 1 "call home" None None (Some "medium") None 40
    :: rows_of (get_tasks Sample.three_tasks Sample.as_alice).
Proof.
  assert (W : wf_db Sample.three_tasks).
  { split; cbn.
    - repeat (constructor; [simpl; intuition discriminate|]). constructor.
    - repeat (constructor; [split; [reflexivity | cbn; lia]|]). constructor. }
  apply (proj2 (proj2 (post_tasks_then_get_tasks Sample.seconds_in
           Sample.three_tasks Sample.as_alice
           (TaskBody.mk (Some "call home") None None (Some "medium") None) 40
           (Task.mk 4 1 "call home" None None (Some "medium") None 40)
           W eq_refl))).
  intros x [<-|[<-|[<-|[]]]]; cbn; intros; lia.
Defined.

(** ** DELETE, once and again *)

(** For an id of 32 bits, DELETE answers 200 exactly when the caller has
    a task of that id, and 404 otherwise.  Afterwards the caller has none:
    no stored row has that id under the caller, the caller's list shows no
    row of that id, and the same DELETE again answers 404 and changes
    nothing.  For any other id, a number or not, DELETE answers 500 and
    changes nothing. *)
Theorem delete_tasks_id_removes_for_good d user (n : Z) :
  let d' := fst (delete_tasks_id d user n) in
  (-2147483648 <= n <= 2147483647 ->
   (snd (delete_tasks_id d user n) = Res 200 (Text "Task deleted successfully") <->
      exists r, In r (tasks d) /\ Task.id r = n /\ Task.user_id r = jwt_id user)
   /\ (snd (delete_tasks_id d user n)
       = Res 404 (Text "Task not found or not authorized to delete") <->
       forall r, In r (tasks d) -> ~ (Task.id r = n /\ Task.user_id r = jwt_id user))
   /\ (forall r, In r (tasks d') ->
         ~ (Task.id r = n /\ Task.user_id r = jwt_id user))
   /\ (forall r, In r (rows_of (get_tasks d' user)) -> Task.id r <> n)
   /\ delete_tasks_id d' user n
      = (d', Res 404 (Text "Task not found or not authorized to delete")))
  /\ (n < -2147483648 \/ 2147483647 < n ->
      delete_tasks_id d user n = (d, Res 500 (Text "Failed to delete task")))
  /\ delete_tasks_id d user IdOther = (d, Res 500 (Text "Failed to delete task")).
Proof.
  cbv zeta. split; [|split; [|reflexivity]].
  - intros R.
    assert (K : forall r, targets n (jwt_id user) r = true <->
                          Task.id r = n /\ Task.user_id r = jwt_id user).
    { intros r. unfold targets. now rewrite andb_true_iff, !Z.eqb_eq. }
    destruct (delete_tasks_id_cases d user n) as [[B _]|(m & B & E)];
      [rewrite (bind_int4_range _ R) in B; discriminate|].
    apply bind_int4_some in B as [[= <-] _]. rewrite E. cbn [fst snd].
    assert (T : forall r,
               In r (filter (fun r => negb (targets n (jwt_id user) r)) (tasks d)) ->
               ~ (Task.id r = n /\ Task.user_id r = jwt_id user)).
    { intros r Hr. apply filter_In in Hr as [_ Hr]. apply negb_true_iff in Hr.
      rewrite <- K. now rewrite Hr. }
    split; [|split; [|split; [exact T|split]]].
    + destruct (filter (targets n (jwt_id user)) (tasks d)) as [|r l] eqn:F.
      * split; [discriminate|]. intros (r & Hr & Hk). exfalso.
        pose proof (filter_nil_none _ _ F r Hr) as G.
        apply K in Hk. congruence.
      * split; [|reflexivity]. intros _. exists r.
        assert (I : In r (filter (targets n (jwt_id user)) (tasks d)))
          by (rewrite F; now left).
        apply filter_In in I as [I1 I2]. apply K in I2. tauto.
    + destruct (filter (targets n (jwt_id user)) (tasks d)) as [|r l] eqn:F.
      * split; [|reflexivity]. intros _ r Hr Hk.
        pose proof (filter_nil_none _ _ F r Hr) as G.
        apply K in Hk. congruence.
      * split; [discriminate|]. intros G. exfalso.
        assert (I : In r (filter (targets n (jwt_id user)) (tasks d)))
          by (rewrite F; now left).
        apply filter_In in I as [I1 I2]. apply K in I2. now apply (G r I1).
    + intros r Hr Hid.
      destruct (reads_only_owned (fun _ => None) _ user (FilterQuery.mk None None None)
                  None r (or_introl Hr)) as [Hin Hu].
      now apply (T r Hin).
    + rewrite delete_tasks_id_untargeted.
      * now rewrite (bind_int4_range _ R).
      * intros m [= <-]. cbn [tasks set_tasks]. apply filter_none.
        intros y Hy. apply filter_In in Hy as [_ Hy]. now apply negb_true_iff.
  - intros R. destruct (delete_tasks_id_cases d user n) as [[_ E]|(m & B & _)];
      [exact E|]. rewrite (bind_int4_outside _ R) in B. discriminate.
Qed.

(** ** PUT, once and again *)

Lemma coalesce_again {A : Type} (p col : option A) :
  coalesce p (coalesce p col) = coalesce p col.
Proof. now destruct p. Qed.

(** The SET list applied to its own result changes nothing. *)
Lemma update_row_again t ds st pr dl r :
  update_row t ds st pr dl (update_row t ds st pr dl r) = update_row t ds st pr dl r.
Proof.
  unfold update_row. cbn. rewrite !coalesce_again. now destruct t.
Qed.

Lemma bind_timestamp_agree ti1 ti2 deadline :
  (forall s, deadline = Some s -> ti1 s = ti2 s) ->
  bind_timestamp ti1 deadline = bind_timestamp ti2 deadline.
Proof.
  intros H. destruct deadline as [s|]; [|reflexivity].
  unfold bind_timestamp, bind. now rewrite (H s eq_refl).
Qed.

(** The same PUT sent again, on the store the first one left, gets the
    answer the first one got and leaves the rows of that store as they
    are: whether the first was a 200, a 400, a 404 or a 500.  This is so
    when the store reads the deadline of the request, if it has one, both
    times as the same timestamp; a deadline such as [now] is read against
    the clock, and is another timestamp the second time. *)
Theorem put_tasks_id_again ti1 ti2 d user id req :
  (forall s, TaskBody.deadline req = Some s -> ti1 s = ti2 s) ->
  let first := put_tasks_id ti1 d user id req in
  let again := put_tasks_id ti2 (fst first) user id req in
  snd again = snd first
  /\ Permutation (tasks (fst again)) (tasks (fst first))
  /\ users (fst again) = users (fst first)
  /\ tasks_id_seq (fst again) = tasks_id_seq (fst first).
Proof.
  intros H. cbv zeta.
  assert (G : put_tasks_id ti2 (fst (put_tasks_id ti1 d user id req)) user id req
              = put_tasks_id ti1 d user id req);
    [|rewrite G; auto].
  destruct req as [title description status priority deadline]. cbn in H.
  unfold put_tasks_id.
  destruct (falsy title && _ && _ && _ && _); [reflexivity|].
  unfold update_task, bind_task.
  rewrite <- (bind_timestamp_agree _ _ _ H).
  destruct (bind (varchar_in 255) title) as [t|]; [|reflexivity].
  destruct (bind text_in description) as [ds|]; [|reflexivity].
  destruct (bind (varchar_in 50) status) as [st|]; [|reflexivity].
  destruct (bind (varchar_in 50) priority) as [pr|]; [|reflexivity].
  destruct (bind_timestamp ti1 deadline) as [dl|]; [|reflexivity].
  destruct (bind_int4 id) as [n|]; [|reflexivity].
  set (hit := targets n (jwt_id user)). set (upd := update_row t ds st pr dl).
  destruct (filter_written hit upd (tasks d)
              (fun x => update_row_targets n (jwt_id user) t ds st pr dl x))
    as [W1 W2].
  assert (E1 : filter hit (filter (fun r => negb (hit r)) (tasks d)
                           ++ map upd (filter hit (tasks d)))
               = map upd (filter hit (tasks d))).
  { rewrite filter_app, W1. rewrite filter_none; [reflexivity|].
    intros y Hy. apply filter_In in Hy as [_ Hy]. now apply negb_true_iff. }
  assert (E2 : filter (fun r => negb (hit r))
                 (filter (fun r => negb (hit r)) (tasks d)
                  ++ map upd (filter hit (tasks d)))
               = filter (fun r => negb (hit r)) (tasks d)).
  { rewrite filter_app, W2, filter_idem. apply app_nil_r. }
  assert (E3 : map upd (map upd (filter hit (tasks d)))
               = map upd (filter hit (tasks d))).
  { rewrite map_map. apply map_ext. intros x. apply update_row_again. }
  destruct (map upd (filter hit (tasks d))) as [|r0 rest] eqn:M;
    cbn [fst tasks set_tasks]; rewrite E1, E2, E3; now destruct d.
Qed.

Lemma put_tasks_id_again_witness :
  let first := put_tasks_id Sample.two_dates_in Sample.three_tasks Sample.as_alice 1
                 (TaskBody.mk None None None None (Some "2025-06-30")) in
  let again := put_tasks_id Sample.two_dates_in (fst first) Sample.as_alice 1
                 (TaskBody.mk None None None None (Some "2025-06-30")) in
  snd again = snd first
  /\ Permutation (tasks (fst again)) (tasks (fst first))
  /\ users (fst again) = users (fst first)
  /\ tasks_id_seq (fst again) = tasks_id_seq (fst first).
Proof.
  apply (put_tasks_id_again Sample.two_dates_in Sample.two_dates_in
           Sample.three_tasks Sample.as_alice 1
           (TaskBody.mk None None None None (Some "2025-06-30"))).
  intros s _. reflexivity.
Defined.

(** ** One owner's writes and another's reads *)

Lemma serve_keeps_others_rows ti d q uid :
  jwt_id (requester q) <> uid ->
  owned uid (fst (serve ti d q)) = owned uid d.
Proof.
  intros Hne. unfold owned.
  destruct q as [user req now | user id req | user id]; cbn [serve requester] in *.
  - destruct (post_tasks_store ti d user req now) as [->|(r & Hr & ->)];
      [reflexivity|].
    rewrite filter_app. simpl.
    replace (Task.user_id r =? uid) with false; [apply app_nil_r|].
    symmetry. apply Z.eqb_neq. congruence.
  - destruct (put_tasks_id_store ti d user id req)
      as [->|(t & ds & st & pr & dl & n & _ & _ & ->)]; [reflexivity|].
    cbn [tasks set_tasks]. rewrite filter_app.
    rewrite filter_filter_out.
    + rewrite (filter_none _ (map _ _)); [apply app_nil_r|].
      intros y Hy. apply in_map_iff in Hy as (x & <- & Hx).
      apply filter_In in Hx as [_ Hx]. unfold targets in Hx.
      apply andb_true_iff in Hx as [_ Hx]. apply Z.eqb_eq in Hx.
      cbn [update_row Task.user_id]. apply Z.eqb_neq. congruence.
    + intros x Hx. unfold targets in Hx. apply andb_true_iff in Hx as [_ Hx].
      apply Z.eqb_eq in Hx. apply Z.eqb_neq. congruence.
  - destruct (delete_tasks_id_store d user id) as [->|(n & _ & ->)]; [reflexivity|].
    cbn [tasks set_tasks]. apply filter_filter_out.
    intros x Hx. unfold targets in Hx. apply andb_true_iff in Hx as [_ Hx].
    apply Z.eqb_eq in Hx. apply Z.eqb_neq. congruence.
Qed.

(** Creates, updates and deletes by other users, however many and
    whatever their ids and fields, leave a user's rows as they were, in
    place, and so the answers to that user's list, filter and search. *)
Theorem writes_of_others_leave_reads ti dp d b qs q kw :
  Forall (fun w => jwt_id (requester w) <> jwt_id b) qs ->
  let d' := serve_all ti d qs in
  owned (jwt_id b) d' = owned (jwt_id b) d
  /\ get_tasks d' b = get_tasks d b
  /\ get_tasks_filter dp d' b q = get_tasks_filter dp d b q
  /\ get_tasks_search d' b kw = get_tasks_search d b kw.
Proof.
  intros H d'.
  assert (O : owned (jwt_id b) d' = owned (jwt_id b) d).
  { subst d'. revert d. induction H as [|w qs Hw _ IH]; intros d; [reflexivity|].
    cbn. fold (serve_all ti (fst (serve ti d w)) qs).
    rewrite IH. now apply serve_keeps_others_rows. }
  split; [exact O|]. now apply reads_from_owned.
Qed.

Lemma writes_of_others_leave_reads_witness :
  let d' := serve_all Sample.seconds_in Sample.three_tasks
              [PUT_tasks_id Sample.as_bob 1
                 (TaskBody.mk (Some "taken") None None None None);
               DELETE_tasks_id Sample.as_bob 3;
               POST_tasks Sample.as_bob
                 (TaskBody.mk (Some "pay rent") None None (Some "high") None) 50;
               DELETE_tasks_id Sample.as_bob 2] in
  owned 1 d' = [Sample.milk; Sample.rent]
  /\ get_tasks d' Sample.as_alice = get_tasks Sample.three_tasks Sample.as_alice
  /\ get_tasks_filter Sample.seconds_in d' Sample.as_alice
       (FilterQuery.mk None (Some "high") None)
     = get_tasks_filter Sample.seconds_in Sample.three_tasks Sample.as_alice
         (FilterQuery.mk None (Some "high") None)
  /\ get_tasks_search d' Sample.as_alice (Some "rent")
     = get_tasks_search Sample.three_tasks Sample.as_alice (Some "rent").
Proof.
  cbv zeta.
  apply (writes_of_others_leave_reads Sample.seconds_in Sample.seconds_in
           Sample.three_tasks Sample.as_alice).
  repeat (constructor; [cbn; lia|]). constructor.
Defined.

(** ** The filter against the list *)

Section OrderByFilter.
Context {A : Type} (before : A -> A -> bool) (p : A -> bool).
Hypothesis before_trans : forall a b c,
  before a b = true -> before b c = true -> before a c = true.



Hypothesis before_total : forall a b, before a b = true \/ before b a = true.


End OrderByFilter.





(** ** What the search never misses, and never refuses *)

Lemma like_parse_no_backslash l rest :
  forallb (fun c => negb (Ascii.eqb c "\"%char)) l = true ->
  like_parse false (l ++ rest)
  = option_map (app (map like_tok_of l)) (like_parse false rest).
Proof.
  induction l as [|c l IH]; simpl; intros H.
  - now destruct (like_parse false rest).
  - apply andb_true_iff in H as [Hc Hl]. apply negb_true_iff in Hc.
    rewrite Hc, (IH Hl). unfold like_tok_of.
    destruct (Ascii.eqb c "%"%char); [now destruct (like_parse false rest)|].
    destruct (Ascii.eqb c "_"%char); now destruct (like_parse false rest).
Qed.

Lemma to_lower_backslash c :
  Ascii.eqb (to_lower c) "\"%char = Ascii.eqb c "\"%char.
Proof. destruct c as [[] [] [] [] [] [] [] []]; reflexivity. Qed.

Lemma no_backslash_lower kw :
  no_backslash kw = true ->
  forallb (fun c => negb (Ascii.eqb c "\"%char)) (lower kw) = true.
Proof.
  unfold no_backslash, lower.
  induction (list_ascii_of_string kw) as [|c l IH]; simpl; [reflexivity|].
  intros H. apply andb_true_iff in H as [Hc Hl].
  now rewrite to_lower_backslash, Hc, IH.
Qed.

Lemma like_toks_any_step ts c s :
  like_toks (LAny :: ts) s = true -> like_toks (LAny :: ts) (c :: s) = true.
Proof. intros H. rewrite like_toks_any, H. apply orb_true_r. Qed.

Lemma like_toks_any_here ts s :
  like_toks ts s = true -> like_toks (LAny :: ts) s = true.
Proof. intros H. now rewrite like_toks_any, H. Qed.

(** Each pattern character matches itself. *)
Lemma like_toks_itself p rest s :
  like_toks rest s = true -> like_toks (map like_tok_of p ++ rest) (p ++ s) = true.
Proof.
  intros H. induction p as [|c p IH]; [exact H|].
  cbn [map app]. unfold like_tok_of at 1.
  destruct (Ascii.eqb c "%"%char).
  - apply like_toks_any_step. now apply like_toks_any_here.
  - destruct (Ascii.eqb c "_"%char); cbn; [exact IH|].
    now rewrite Ascii.eqb_refl.
Qed.

Lemma prefix_of_app p s : prefix_of p s = true -> exists post, s = p ++ post.
Proof.
  revert s. induction p as [|c p IH]; intros s H; [now exists s|].
  destruct s as [|d s]; [discriminate|]. cbn in H.
  apply andb_true_iff in H as [E H]. apply Ascii.eqb_eq in E. subst d.
  destruct (IH _ H) as [post ->]. now exists post.
Qed.

Lemma like_toks_occurrence p s :
  occurs_in p s = true ->
  like_toks (LAny :: map like_tok_of p ++ [LAny]) s = true.
Proof.
  induction s as [|c s IH]; cbn [occurs_in]; intros H.
  - rewrite orb_false_r in H. apply prefix_of_app in H as [post E].
    apply like_toks_any_here. rewrite E. apply like_toks_itself.
    apply like_toks_any_alone.
  - apply orb_true_iff in H as [H|H].
    + apply prefix_of_app in H as [post E].
      apply like_toks_any_here. rewrite E. apply like_toks_itself.
      apply like_toks_any_alone.
    + apply like_toks_any_step. now apply IH.
Qed.

Lemma like_parse_search_no_backslash kw :
  no_backslash kw = true ->
  like_parse false (lower (String.append "%" (String.append kw "%")))
  = Some (LAny :: map like_tok_of (lower kw) ++ [LAny]).
Proof.
  intros H. rewrite lower_search_pattern, like_parse_percent.
  rewrite (like_parse_no_backslash _ _ (no_backslash_lower _ H)). reflexivity.
Qed.

(** Whatever the keyword, its pattern is accepted.  GET /tasks/search
    answers 400 to a missing or empty keyword; it answers 200 to every
    other keyword without the byte 0, backslashes, [%] and [_] included,
    with rows of the caller only, latest deadline first and those with no
    deadline before the others. *)
Theorem get_tasks_search_accepts_every_keyword d user keyword :
  no_nul keyword = true ->
  (falsy keyword = true /\
   get_tasks_search d user keyword
   = Res 400 (Text "Keyword is required for searching"))
  \/ (falsy keyword = false /\
      exists rows,
        get_tasks_search d user keyword = Res 200 (Rows rows)
        /\ (forall r, In r rows -> In r (tasks d) /\ Task.user_id r = jwt_id user)
        /\ Sorted (fun x y => match Task.deadline x, Task.deadline y with
                              | None, _ => True
                              | Some _, None => False
                              | Some a, Some b => b <= a
                              end) rows).
Proof.
  intros _.
  destruct (get_tasks_search_answers d user keyword) as [A0 A1].
  destruct (falsy keyword) eqn:F; [left | right]; split; auto.
  destruct (A1 eq_refl) as [rows E]. exists rows. split; [exact E|].
  pose proof (get_tasks_search_sorted d user keyword) as S.
  rewrite E in S. split; [|exact S].
  intros r Hr.
  apply (reads_only_owned (fun _ => None) d user (FilterQuery.mk None None None)
           keyword r).
  right. right. now rewrite E.
Qed.

Lemma get_tasks_search_accepts_every_keyword_witness :
  (falsy (Some "50%\") = true /\
   get_tasks_search Sample.three_tasks Sample.as_alice (Some "50%\")
   = Res 400 (Text "Keyword is required for searching"))
  \/ (falsy (Some "50%\") = false /\
      exists rows,
        get_tasks_search Sample.three_tasks Sample.as_alice (Some "50%\")
        = Res 200 (Rows rows)
        /\ (forall r, In r rows ->
              In r (tasks Sample.three_tasks)
              /\ Task.user_id r = jwt_id Sample.as_alice)
        /\ Sorted (fun x y => match Task.deadline x, Task.deadline y with
                              | None, _ => True
                              | Some _, None => False
                              | Some a, Some b => b <= a
                              end) rows).
Proof.
  apply (get_tasks_search_accepts_every_keyword Sample.three_tasks Sample.as_alice
           (Some "50%\")).
  reflexivity.
Defined.

(** A keyword without a backslash finds every task of the caller that
    has it in the title or in the description, letter case apart (and,
    when it has [%] or [_] in it, others too). *)
Theorem get_tasks_search_finds_every_occurrence d user kw r :
  kw <> "" -> no_backslash kw = true ->
  In r (tasks d) -> Task.user_id r = jwt_id user ->
  keyword_hit kw r = true ->
  In r (rows_of (get_tasks_search d user (Some kw))).
Proof.
  intros Hne Hb Hin Hu Hit. unfold get_tasks_search.
  replace (falsy (Some kw)) with false
    by (symmetry; simpl; now apply String.eqb_neq).
  unfold select_search. cbn [text].
  rewrite (like_parse_search_no_backslash _ Hb). unfold rows_of. cbn [sent].
  apply order_by_in, filter_In. split; [exact Hin|].
  unfold search_where. rewrite Hu, Z.eqb_refl.
  unfold keyword_hit, contains_ci in Hit.
  apply orb_true_iff in Hit as [Hit|Hit].
  - unfold ilike at 1. cbn [option_map].
    rewrite (like_toks_occurrence _ _ Hit). reflexivity.
  - destruct (Task.description r) as [s|]; [|discriminate].
    unfold ilike. cbn [option_map].
    rewrite (like_toks_occurrence _ _ Hit).
    now destruct (like_toks _ (lower (Task.title r))).
Qed.

Lemma get_tasks_search_finds_every_occurrence_witness :
  In (Task.mk 1 1 "Offer: 50%_milk today" None None (Some "low") None 10)
    (rows_of
       (get_tasks_search
          (mkdb [Sample.alice]
             [Task.mk 1 1 "Offer: 50%_milk today" None None (Some "low") None 10] 1)
          Sample.as_alice (Some "50%_MILK"))).
Proof.
  apply (get_tasks_search_finds_every_occurrence
           (mkdb [Sample.alice]
              [Task.mk 1 1 "Offer: 50%_milk today" None None (Some "low") None 10] 1)
           Sample.as_alice "50%_MILK"
           (Task.mk 1 1 "Offer: 50%_milk today" None None (Some "low") None 10));
    [discriminate | reflexivity | now left | reflexivity | vm_compute; reflexivity].
Defined.

(** ** What a login that succeeds has checked *)

Lemma filter_first {A : Type} (f : A -> bool) l u rest :
  filter f l = u :: rest ->
  exists before after,
    l = before ++ u :: after
    /\ (forall v, In v before -> f v = false)
    /\ f u = true.
Proof.
  induction l as [|a l IH]; [discriminate|]. simpl.
  destruct (f a) eqn:M.
  - intros [= -> _]. exists [], l. split; [reflexivity|]. split; [intros v []|exact M].
  - intros E. destruct (IH E) as (before & after & -> & H & Hu).
    exists (a :: before), after. split; [reflexivity|]. split; [|exact Hu].
    intros v [<-|Hv]; [exact M | now apply H].
Qed.

(** When a login is answered 200, both fields were non-empty, the store
    accepted the identifier, some stored user has it as email or as
    username, the password verifies against the hash of the first such
    user of the table, and the token carries the id and the username of
    that user. *)
Theorem post_login_success_is_checked cmp d req :
  status (post_login cmp d req) = 200 ->
  exists x pw before u after,
    req = LoginBody.mk (Some x) (Some pw)
    /\ x <> "" /\ pw <> "" /\ has_nul x = false
    /\ users d = before ++ u :: after
    /\ (forall v, In v before -> User.email v <> x /\ User.username v <> x)
    /\ (User.email u = x \/ User.username u = x)
    /\ cmp pw (User.password u) = true
    /\ post_login cmp d req
       = Res 200 (Token "Login successful"
                    (mkjwt (User.id u) (User.username u))).
Proof.
  destruct req as [x pw]. unfold post_login.
  destruct (falsy x || falsy pw) eqn:F; [discriminate|].
  apply orb_false_iff in F as [Fx Fp].
  destruct x as [x|]; [|discriminate]. destruct pw as [pw|]; [|discriminate].
  cbn [text]. cbn in Fx, Fp. apply String.eqb_neq in Fx, Fp.
  destruct (has_nul x) eqn:N; [now rewrite (query_user_refused _ _ N)|].
  rewrite (query_user_clean _ _ N).
  destruct (filter _ (users d)) as [|u rest] eqn:E; [discriminate|].
  destruct (cmp pw (User.password u)) eqn:C; cbn [negb]; [|discriminate].
  intros _. apply filter_first in E as (before & after & E & Hb & Hu).
  exists x, pw, before, u, after.
  apply orb_true_iff in Hu. rewrite !String.eqb_eq in Hu.
  repeat split; auto;
    apply Hb in H; apply orb_false_iff in H as [H1 H2];
    now apply String.eqb_neq.
Qed.

Lemma post_login_success_is_checked_witness :
  exists x pw before u after,
    LoginBody.mk (Some "bob") (Some "hunter22") = LoginBody.mk (Some x) (Some pw)
    /\ x <> "" /\ pw <> "" /\ has_nul x = false
    /\ users Sample.registered = before ++ u :: after
    /\ (forall v, In v before -> User.email v <> x /\ User.username v <> x)
    /\ (User.email u = x \/ User.username u = x)
    /\ Sample.tagged_compare pw (User.password u) = true
    /\ post_login Sample.tagged_compare Sample.registered
         (LoginBody.mk (Some "bob") (Some "hunter22"))
       = Res 200 (Token "Login successful" (mkjwt (User.id u) (User.username u))).
Proof.
  apply (post_login_success_is_checked Sample.tagged_compare
           Sample.registered (LoginBody.mk (Some "bob") (Some "hunter22"))).
  reflexivity.
Defined.

(** ** authenticateToken *)

Lemma split_space_word w s :
  no_space w = true ->
  split_space (String.append w (String " " s)) = w :: split_space s.
Proof.
  unfold no_space. induction w as [|c w IH]; cbn; intros H; [reflexivity|].
  apply andb_true_iff in H as [Hc Hw]. apply negb_true_iff in Hc.
  now rewrite Hc, (IH Hw).
Qed.

Lemma split_space_last w :
  no_space w = true -> split_space w = [w].
Proof.
  unfold no_space. induction w as [|c w IH]; cbn; intros H; [reflexivity|].
  apply andb_true_iff in H as [Hc Hw]. apply negb_true_iff in Hc.
  now rewrite Hc, (IH Hw).
Qed.

(** The guard reads the second of the pieces that single spaces cut the
    header into, and nothing else.  With no header, or a header with no
    space in it, it answers 401.  With a header [scheme token], or
    [scheme token more..], it answers 401 when the token is empty, 403
    when [jwt.verify] refuses the token, and lets the request through with
    the payload of the token otherwise: whatever the scheme word is. *)
Theorem authenticateToken_reads_second_piece verify scheme token more :
  no_space scheme = true -> no_space token = true ->
  let outcome :=
    if String.eqb token "" then inl (Res 401 (Text "Access token required"))
    else
      match verify token with
      | None => inl (Res 403 (Text "Invalid token"))
      | Some user => inr user
      end in
  authenticateToken verify None = inl (Res 401 (Text "Access token required"))
  /\ authenticateToken verify (Some scheme)
     = inl (Res 401 (Text "Access token required"))
  /\ authenticateToken verify (Some (String.append scheme (String " " token)))
     = outcome
  /\ authenticateToken verify
       (Some (String.append scheme
                (String " " (String.append token (String " " more)))))
     = outcome.
Proof.
  intros Hs Ht outcome. unfold authenticateToken.
  split; [reflexivity|]. split; [now rewrite (split_space_last _ Hs)|].
  rewrite !(split_space_word _ _ Hs), (split_space_word _ _ Ht),
          (split_space_last _ Ht).
  cbn [nth_error]. subst outcome. cbn [falsy text].
  destruct (String.eqb token ""); split; reflexivity.
Qed.

Lemma authenticateToken_reads_second_piece_witness :
  authenticateToken SampleAccounts.two_tokens (Some "Bearer tok.alice")
  = inr Sample.as_alice
  /\ authenticateToken SampleAccounts.two_tokens (Some "Basic tok.alice and more")
     = inr Sample.as_alice.
Proof.
  split.
  - apply (proj1 (proj2 (proj2 (authenticateToken_reads_second_piece
             SampleAccounts.two_tokens "Bearer" "tok.alice" "" eq_refl eq_refl)))).
  - apply (proj2 (proj2 (proj2 (authenticateToken_reads_second_piece
             SampleAccounts.two_tokens "Basic" "tok.alice" "and more"
             eq_refl eq_refl)))).
Defined.

(** When the guard lets a request through, the token it verified is a
    piece of the header with no space in it and at least one character,
    and the payload is what [jwt.verify] returned for it. *)
Theorem authenticateToken_admits_verified verify header user :
  authenticateToken verify header = inr user ->
  exists h token,
    header = Some h
    /\ nth_error (split_space h) 1 = Some token
    /\ token <> "" /\ no_space token = true
    /\ verify token = Some user.
Proof.
  unfold authenticateToken. destruct header as [h|]; [|discriminate].
  destruct (nth_error (split_space h) 1) as [token|] eqn:E; [|discriminate].
  cbn [falsy text]. destruct (String.eqb_spec token ""); [discriminate|].
  destruct (verify token) as [u|] eqn:V; [|discriminate].
  intros [= <-]. exists h, token. repeat split; auto.
  assert (G : forall s, Forall (fun w => no_space w = true) (split_space s)).
  { clear. induction s as [|c s IH]; cbn; [now repeat constructor|].
    destruct (Ascii.eqb c " "%char) eqn:C; [now constructor|].
    destruct (split_space s) as [|w ws]; [now repeat constructor; cbn; rewrite C|].
    inversion IH; subst. constructor; [|assumption].
    unfold no_space in *. cbn. now rewrite C. }
  specialize (G h). rewrite Forall_forall in G. apply G.
  eapply nth_error_In; exact E.
Qed.

Lemma authenticateToken_admits_verified_witness :
  exists h token,
    Some "Bearer tok.bob" = Some h
    /\ nth_error (split_space h) 1 = Some token
    /\ token <> "" /\ no_space token = true
    /\ SampleAccounts.two_tokens token = Some Sample.as_bob.
Proof.
  apply (authenticateToken_admits_verified SampleAccounts.two_tokens
           (Some "Bearer tok.bob") Sample.as_bob).
  reflexivity.
Defined.

(** ** POST /register *)

Lemma post_register_rejected hash s username email password salt now :
  falsy username || falsy email || falsy password = true ->
  post_register hash s (RegisterBody.mk username email password) salt now
  = (s, Some (Res 400 (Text "All fields are required"))).
Proof. intros H. unfold post_register. now rewrite H. Qed.

Lemma post_register_accepted hash s username email password salt now :
  falsy username || falsy email || falsy password = false ->
  post_register hash s (RegisterBody.mk username email password) salt now
  = match insert_user s (text username) (text email)
            (hash salt (text password)) now with
    | (s', inl id) =>
        (s', Some (Res 201 (Text (String.append "User registered with ID: "
                                    (decimal id)))))
    | (s', inr UniqueViolation) =>
        (s', Some (Res 409 (Text "Username or email already exists")))
    | (s', inr OtherError) => (s', None)
    end.
Proof. intros H. unfold post_register. now rewrite H. Qed.

(** The outcomes of the INSERT into [users]. *)
Lemma insert_user_cases s username email password now :
  let id := users_id_seq s + 1 in
  (exists u e p,
      varchar_in 255 username = Some u /\ varchar_in 255 email = Some e
      /\ varchar_in 255 password = Some p
      /\ ((existsb (fun x => String.eqb (User.email x) e) (users (store s)) = true
           /\ insert_user s username email password now
              = (mkserver (store s) id, inr UniqueViolation))
          \/ (existsb (fun x => String.eqb (User.email x) e) (users (store s)) = false
              /\ insert_user s username email password now
                 = (mkserver
                      (mkdb (users (store s) ++ [User.mk id u e p now])
                         (tasks (store s)) (tasks_id_seq (store s))) id,
                    inl id))))
  \/ ((varchar_in 255 username = None \/ varchar_in 255 email = None
       \/ varchar_in 255 password = None)
      /\ insert_user s username email password now = (s, inr OtherError)).
Proof.
  cbv zeta. unfold insert_user.
  destruct (varchar_in 255 username) as [u|]; [|right; auto].
  destruct (varchar_in 255 email) as [e|]; [|right; auto].
  destruct (varchar_in 255 password) as [p|]; [|right; auto].
  left. exists u, e, p. repeat split.
  destruct (existsb _ (users (store s))); [left | right]; auto.
Qed.

(** POST /register never answers 500: its answer is 400, 409 or 201.
    When the three fields are there and the store refuses the username,
    the email or the hash, for a byte 0 in it or because it does not fit
    its column of 255 characters, no answer is sent at all, no user is
    added and no id is used. *)
Theorem post_register_never_answers_500 hash s username email password salt now :
  let out :=
    post_register hash s (RegisterBody.mk username email password) salt now in
  (forall r, snd out = Some r ->
     status r = 400 \/ status r = 409 \/ status r = 201)
  /\ (falsy username = false -> falsy email = false -> falsy password = false ->
      has_nul (text username) = true \/ has_nul (text email) = true
      \/ has_nul (hash salt (text password)) = true
      \/ varchar 255 (text username) = None \/ varchar 255 (text email) = None
      \/ varchar 255 (hash salt (text password)) = None ->
      snd out = None /\ fst out = s).
Proof.
  cbv zeta.
  destruct (falsy username || falsy email || falsy password) eqn:F.
  - rewrite (post_register_rejected _ _ _ _ _ _ _ F). cbn.
    split; [intros r [= <-]; auto|].
    intros Fu Fe Fp. rewrite Fu, Fe, Fp in F. discriminate.
  - rewrite (post_register_accepted _ _ _ _ _ _ _ F).
    destruct (insert_user_cases s (text username) (text email)
                (hash salt (text password)) now)
      as [(u & e & p & Hu & He & Hp & [[_ ->]|[_ ->]]) | [H ->]]; cbn.
    + split; [intros r [= <-]; auto|]. intros _ _ _ G. exfalso.
      apply varchar_in_some in Hu as [Nu Hu], He as [Ne He], Hp as [Np Hp].
      destruct G as [G|[G|[G|[G|[G|G]]]]]; congruence.
    + split; [intros r [= <-]; auto|]. intros _ _ _ G. exfalso.
      apply varchar_in_some in Hu as [Nu Hu], He as [Ne He], Hp as [Np Hp].
      destruct G as [G|[G|[G|[G|[G|G]]]]]; congruence.
    + split; [discriminate|]. auto.
Qed.

(** The conflict is on the email alone.  For a registration whose three
    fields are there, have no byte 0 and fit, the answer is 409 exactly
    when a stored user has that email, and then no user is added;
    otherwise it is 201 with the new id in the text, and the user is added
    with that id, the username, the email and the hash of the password,
    whether or not the username is that of a stored user. *)
Theorem post_register_conflict_is_on_email hash s username email password salt now :
  username <> "" -> email <> "" -> password <> "" ->
  has_nul username = false -> has_nul email = false ->
  has_nul (hash salt password) = false ->
  (String.length username <= 255)%nat -> (String.length email <= 255)%nat ->
  (String.length (hash salt password) <= 255)%nat ->
  let out := post_register hash s
               (RegisterBody.mk (Some username) (Some email) (Some password))
               salt now in
  let id := users_id_seq s + 1 in
  ((exists u, In u (users (store s)) /\ User.email u = email) ->
   snd out = Some (Res 409 (Text "Username or email already exists"))
   /\ users (store (fst out)) = users (store s))
  /\ ((forall u, In u (users (store s)) -> User.email u <> email) ->
      snd out = Some (Res 201 (Text (String.append "User registered with ID: "
                                       (decimal id))))
      /\ Permutation (users (store (fst out)))
           (User.mk id username email (hash salt password) now
            :: users (store s))
      /\ tasks (store (fst out)) = tasks (store s)).
Proof.
  intros Hu He Hp Nu Ne Np Lu Le Lp out id. subst out.
  rewrite post_register_accepted
    by (cbn; apply String.eqb_neq in Hu, He, Hp; now rewrite Hu, He, Hp).
  cbn [text]. unfold insert_user.
  rewrite !varchar_in_fits by (try assumption; now apply Nat.leb_le).
  split.
  - intros (u & Hin & E).
    replace (existsb _ (users (store s))) with true; [now split|].
    symmetry. apply existsb_exists. exists u. split; [exact Hin|].
    now apply String.eqb_eq.
  - intros H.
    replace (existsb (fun x => String.eqb (User.email x) email) (users (store s)))
      with false.
    + cbn [fst snd store users tasks]. split; [reflexivity|].
      split; [|reflexivity]. apply Permutation_sym, Permutation_cons_append.
    + symmetry. apply not_true_is_false. intros E.
      apply existsb_exists in E as (u & Hin & E). apply String.eqb_eq in E.
      now apply (H u Hin).
Qed.

Lemma post_register_conflict_is_on_email_witness :
  snd (post_register SampleAccounts.tagged_hash (mkserver Sample.registered 2)
         (RegisterBody.mk (Some "alice") (Some "alice2@x.com") (Some "secret"))
         "salt" 9)
  = Some (Res 201 (Text "User registered with ID: 3"))
  /\ snd (post_register SampleAccounts.tagged_hash (mkserver Sample.registered 2)
            (RegisterBody.mk (Some "zed") (Some "a@x.com") (Some "secret"))
            "salt" 9)
     = Some (Res 409 (Text "Username or email already exists")).
Proof.
  split.
  - apply (proj2 (post_register_conflict_is_on_email SampleAccounts.tagged_hash
             (mkserver Sample.registered 2) "alice" "alice2@x.com" "secret" "salt" 9
             ltac:(discriminate) ltac:(discriminate) ltac:(discriminate)
             eq_refl eq_refl eq_refl
             ltac:(cbn; lia) ltac:(cbn; lia) ltac:(cbn; lia))).
    intros u [<-|[<-|[]]]; discriminate.
  - apply (proj1 (post_register_conflict_is_on_email SampleAccounts.tagged_hash
             (mkserver Sample.registered 2) "zed" "a@x.com" "secret" "salt" 9
             ltac:(discriminate) ltac:(discriminate) ltac:(discriminate)
             eq_refl eq_refl eq_refl
             ltac:(cbn; lia) ltac:(cbn; lia) ltac:(cbn; lia))).
    exists Sample.alice. split; [now left | reflexivity].
Defined.

Lemma post_register_keeps_users_wf hash s req salt now :
  wf_users s ->
  wf_users (fst (post_register hash s req salt now))
  /\ tasks (store (fst (post_register hash s req salt now))) = tasks (store s)
  /\ (forall u, In u (users (store s)) ->
        In u (users (store (fst (post_register hash s req salt now))))).
Proof.
  intros (Ni & Ne & F & P). destruct req as [username email password].
  destruct (falsy username || falsy email || falsy password) eqn:V.
  - rewrite (post_register_rejected _ _ _ _ _ _ _ V). cbn [fst].
    split; [|split; [reflexivity | auto]].
    split; [exact Ni|]. split; [exact Ne|]. split; [exact F | exact P].
  - rewrite (post_register_accepted _ _ _ _ _ _ _ V).
    assert (F' : Forall (fun u => 0 < User.id u <= users_id_seq s + 1)
                   (users (store s))).
    { rewrite Forall_forall in *. intros u Hu. specialize (F u Hu). lia. }
    destruct (insert_user_cases s (text username) (text email)
                (hash salt (text password)) now)
      as [(u & e & p & _ & _ & _ & [[_ ->]|[E ->]]) | [_ ->]]; cbn [fst].
    + split; [|split; [reflexivity | auto]].
      split; [exact Ni|]. split; [exact Ne|]. split; [exact F' | cbn; lia].
    + split; [|split; [reflexivity | intros x Hx; apply in_or_app; now left]].
      unfold wf_users. cbn [store users users_id_seq]. rewrite !map_app.
      cbn [map].
      split; [|split; [|split]].
      * apply NoDup_app; [exact Ni | repeat constructor; tauto |].
        intros a Ha [<-|[]]. apply in_map_iff in Ha as (x & Ex & Hx).
        cbn in Ex. rewrite Forall_forall in F. specialize (F x Hx). lia.
      * apply NoDup_app; [exact Ne | repeat constructor; tauto |].
        intros a Ha [<-|[]]. apply in_map_iff in Ha as (x & Ex & Hx).
        cbn in Ex.
        assert (T : existsb (fun x => String.eqb (User.email x) e)
                      (users (store s)) = true).
        { apply existsb_exists. exists x. split; [exact Hx|].
          now apply String.eqb_eq. }
        congruence.
      * apply Forall_app. split; [exact F'|]. repeat constructor; cbn; lia.
      * lia.
    + split; [|split; [reflexivity | auto]].
      split; [exact Ni|]. split; [exact Ne|]. split; [exact F | exact P].
Qed.

(** Whatever registrations are served on a store whose users have
    distinct ids and distinct emails, the users they leave have distinct
    ids and distinct emails; every user that was stored is still stored, as
    it was; and the tasks are untouched. *)
Theorem register_all_keeps_users_distinct hash s rs :
  wf_users s ->
  let s' := register_all hash s rs in
  wf_users s'
  /\ (forall u, In u (users (store s)) -> In u (users (store s')))
  /\ tasks (store s') = tasks (store s).
Proof.
  intros W. cbv zeta. revert s W.
  induction rs as [|[[req salt] now] rs IH]; intros s W; cbn; [auto|].
  destruct (post_register_keeps_users_wf hash s req salt now W) as (W1 & T1 & K1).
  fold (register_all hash (fst (post_register hash s req salt now)) rs).
  destruct (IH _ W1) as (W2 & K2 & T2).
  split; [exact W2|]. split; [auto | congruence].
Qed.

Lemma register_all_keeps_users_distinct_witness :
  wf_users
    (register_all SampleAccounts.tagged_hash SampleAccounts.empty_server
       [(RegisterBody.mk (Some "alice") (Some "a@x.com") (Some "pw123456"), "s1", 0);
        (RegisterBody.mk (Some "alice") (Some "a@x.com") (Some "again"), "s2", 1);
        (RegisterBody.mk (Some "alice") (Some "b@x.com") (Some "hunter22"), "s3", 5)]).
Proof.
  apply (register_all_keeps_users_distinct SampleAccounts.tagged_hash
           SampleAccounts.empty_server).
  repeat split; cbn; try constructor. lia.
Defined.

(** ** A registration, then a login *)

(** After a registration that was answered 201, a login with the same
    email and password is answered 200, with a token that carries the new
    id and the username, when the hash of the password verifies and no user
    stored before has that email as username. *)
Theorem post_register_then_login hash cmp s username email password salt now r :
  (String.length username <= 255)%nat -> (String.length email <= 255)%nat ->
  (String.length (hash salt password) <= 255)%nat ->
  cmp password (hash salt password) = true ->
  (forall u, In u (users (store s)) -> User.username u <> email) ->
  let out := post_register hash s
               (RegisterBody.mk (Some username) (Some email) (Some password))
               salt now in
  snd out = Some r -> status r = 201 ->
  post_login cmp (store (fst out)) (LoginBody.mk (Some email) (Some password))
  = Res 200 (Token "Login successful" (mkjwt (users_id_seq s + 1) username)).
Proof.
  intros Lu Le Lp C Hn out Hr H201. subst out.
  destruct (falsy (Some username) || falsy (Some email) || falsy (Some password))
    eqn:V.
  { rewrite (post_register_rejected _ _ _ _ _ _ _ V) in Hr.
    injection Hr as <-. discriminate. }
  assert (V' := V). apply orb_false_iff in V' as [V' Vp].
  apply orb_false_iff in V' as [_ Ve]. cbn in Ve, Vp.
  apply String.eqb_neq in Ve, Vp.
  rewrite (post_register_accepted _ _ _ _ _ _ _ V) in Hr |- *.
  cbn [text] in *.
  destruct (insert_user_cases s username email (hash salt password) now)
    as [(u & e & p & Hu & He & Hp & [[_ I]|[E I]]) | [_ I]];
    cbv zeta in I; rewrite I in Hr |- *.
  { injection Hr as <-. discriminate. }
  2: { discriminate. }
  apply varchar_in_some in Hu as [_ Hu], He as [Ne He], Hp as [_ Hp].
  rewrite varchar_fits in Hu, He, Hp by now apply Nat.leb_le.
  injection Hu as <-. injection He as <-. injection Hp as <-.
  cbn [fst store].
  rewrite (post_login_by_rows _ _ _ _ Ve Vp), (query_user_clean _ _ Ne).
  cbn [users]. rewrite filter_app. rewrite filter_none.
  - cbn. rewrite String.eqb_refl. cbn. now rewrite C.
  - intros v Hv. apply orb_false_iff. split.
    + apply not_true_is_false. intros T. apply not_true_iff_false in E. apply E.
      apply existsb_exists. now exists v.
    + apply String.eqb_neq. now apply Hn.
Qed.

Lemma post_register_then_login_witness :
  post_login Sample.tagged_compare
    (store (fst (post_register SampleAccounts.tagged_hash
                   (mkserver Sample.registered 2)
                   (RegisterBody.mk (Some "carol") (Some "c@x.com") (Some "secret"))
                   "salt" 9)))
    (LoginBody.mk (Some "c@x.com") (Some "secret"))
  = Res 200 (Token "Login successful" (mkjwt 3 "carol")).
Proof.
  apply (post_register_then_login SampleAccounts.tagged_hash Sample.tagged_compare
           (mkserver Sample.registered 2) "carol" "c@x.com" "secret" "salt" 9
           (Res 201 (Text "User registered with ID: 3"))
           ltac:(cbn; lia) ltac:(cbn; lia) ltac:(cbn; lia) eq_refl).
  - intros u [<-|[<-|[]]]; discriminate.
  - reflexivity.
  - reflexivity.
Defined.

(** ** POST /tasks, when the store refuses the row *)

(** A create that passes the validation is answered 201 or 500.  It is
    answered 500 when the store cannot read the deadline, or the title or
    the description has a byte 0 in it, or the title does not fit 255
    characters, or the caller is not a stored user.  On a 500 no task is
    added, and the answer does not say what the cause was. *)
Theorem post_tasks_fails_in_the_store ti d user title description status priority
    deadline now :
  create_rejected title status priority = false ->
  let out :=
    post_tasks ti d user (TaskBody.mk title description status priority deadline) now in
  ((exists r, snd out = Res 201 (Row r))
   \/ snd out = Res 500 (Text "Failed to create task"))
  /\ (~ readable ti deadline
      \/ no_nul title = false \/ no_nul description = false
      \/ varchar 255 (text title) = None
      \/ existsb (fun u => User.id u =? jwt_id user) (users d) = false ->
      snd out = Res 500 (Text "Failed to create task"))
  /\ (snd out = Res 500 (Text "Failed to create task") ->
      tasks (fst out) = tasks d /\ users (fst out) = users d).
Proof.
  intros R out. subst out. rewrite (post_tasks_accepted _ _ _ _ _ _ _ _ _ R).
  destruct (create_accepted_fields _ _ _ R) as ((t & -> & _) & _ & Hpr & Hst).
  cbn [text no_nul].
  destruct (insert_task ti d (jwt_id user) (Some t) description status priority
              deadline now) as [d' [rows|]] eqn:I.
  - apply insert_task_some in I as (t' & ds & st & pr & dl & I).
    cbv zeta in I. destruct I as (-> & -> & B & Hu).
    apply bind_task_some in B as (Bt & Bd & _ & _ & Bl).
    cbn [fst snd first_row]. split; [left; eauto|]. split; [|discriminate].
    intros G. exfalso.
    cbn in Bt. destruct (varchar_in 255 t) as [t0|] eqn:Et; [|discriminate].
    apply varchar_in_some in Et as [Nt Et].
    apply bind_text_some in Bd as [_ Nd].
    destruct G as [G|[G|[G|[G|G]]]]; try congruence.
    + apply G. apply bind_timestamp_readable. congruence.
    + rewrite Nt in G. discriminate.
  - apply insert_task_none in I as (I1 & I2 & _).
    cbn [fst snd]. split; [now right|]. split; [reflexivity | auto].
Qed.

Lemma post_tasks_fails_in_the_store_witness :
  snd (post_tasks Sample.two_dates_in Sample.registered Sample.as_alice
         (TaskBody.mk (Some "buy milk") None None (Some "low") (Some "soon")) 10)
  = Res 500 (Text "Failed to create task")
  /\ snd (post_tasks Sample.two_dates_in Sample.registered (mkjwt 9 "ghost")
            (TaskBody.mk (Some "buy milk") None None (Some "low") None) 10)
     = Res 500 (Text "Failed to create task").
Proof.
  split.
  - apply (proj1 (proj2 (post_tasks_fails_in_the_store Sample.two_dates_in
             Sample.registered Sample.as_alice (Some "buy milk") None None
             (Some "low") (Some "soon") 10 eq_refl))).
    left. intros [_ H]. now apply H.
  - apply (proj1 (proj2 (post_tasks_fails_in_the_store Sample.two_dates_in
             Sample.registered (mkjwt 9 "ghost") (Some "buy milk") None None
             (Some "low") None 10 eq_refl))).
    right. right. right. right. reflexivity.
Defined.

(** ** What a PUT never touches *)

(** Whatever its fields and whatever it is answered, a PUT adds no task
    and removes none, and leaves the id, the owner and the creation time of
    every task as they were; the users and the id sequence too.  The tasks
    need not be found in the order they were in. *)
Theorem put_tasks_id_keeps_identity ti d user id req :
  let d' := fst (put_tasks_id ti d user id req) in
  Permutation
    (map (fun r => (Task.id r, Task.user_id r, Task.created_at r)) (tasks d'))
    (map (fun r => (Task.id r, Task.user_id r, Task.created_at r)) (tasks d))
  /\ users d' = users d
  /\ tasks_id_seq d' = tasks_id_seq d.
Proof.
  cbv zeta. split; [|apply put_tasks_id_users].
  destruct (put_tasks_id_store ti d user id req)
    as [->|(t & ds & st & pr & dl & n & _ & _ & ->)]; [apply Permutation_refl|].
  cbn [tasks set_tasks]. rewrite map_app, map_map.
  cbn [update_row Task.id Task.user_id Task.created_at]. rewrite <- map_app.
  apply Permutation_map, filter_split_perm.
Qed.
